(** * ChipTone: the synthesizer's sample generator and the session recorder

    A shallow embedding of [Synth] and [Recorder] of [main.py], of the event
    handling of its main loop, and of what [draw_glowing_circle],
    [draw_wave_visualization] and [draw_note_display] compute.

    Python floats and NumPy's [float64] are IEEE binary64 numbers: they are
    Rocq's primitive floats here, so that [+], [-], [*] and [/] round exactly as
    the program's do.  [np.sin] and [np.tanh] come from the platform's maths
    library and are taken as two unknown functions on floats ([Libm]).  NumPy's
    [int16] arrays are lists of [Z] kept in [[-32768, 32767]] with the
    wrap-around written out. *)

From Stdlib Require Import ZArith QArith Qround List Sorted Floats Lia.
From stdpp Require Import base option list sorting strings gmap.

#[local] Set Warnings "-inexact-float".

(** ** Python exceptions as an error monad *)

Inductive PyError : Set :=
  | ValueError
  | OverflowError
  | IndexError.

Inductive result (A : Type) : Type :=
  | Ok (a : A)
  | Raise (e : PyError).

Arguments Ok {A} a.
Arguments Raise {A} e.

#[global] Instance result_ret : MRet result := @Ok.
#[global] Instance result_bind : MBind result := fun A B f r =>
  match r with
  | Ok a => f a
  | Raise e => Raise e
  end.

Definition is_ok {A} (r : result A) : bool :=
  match r with
  | Ok _ => true
  | Raise _ => false
  end.

(** ** The NumPy and Python primitives the program calls *)

Module Np.

#[local] Open Scope Z_scope.

(** Python's conversion of an [int] to a [float] (round to nearest even
    beyond 53 bits; exact for every integer the program converts). *)
Definition of_int (z : Z) : float :=
  SF2Prim (binary_normalize prec emax z 0 false).

(** The integer part of a finite float, rounded toward zero. *)
Definition trunc_finite (s : bool) (m : positive) (e : Z) : Z :=
  let a := Z.shiftl (Z.pos m) e in
  if s then - a else a.

(** Python's [int(x)] on a float: truncation toward zero; [nan] raises
    [ValueError] and an infinity raises [OverflowError]. *)
Definition py_int (x : float) : result Z :=
  match Prim2SF x with
  | S754_zero _ => Ok 0
  | S754_finite s m e => Ok (trunc_finite s m e)
  | S754_infinity _ => Raise OverflowError
  | S754_nan => Raise ValueError
  end.

(** The nearest integer to [m * 2^e] (with [e < 0]), halves to the even
    neighbour. *)
Definition nearest_even (m : positive) (e : Z) : Z :=
  let q := Z.shiftl (Z.pos m) e in
  let r := Z.pos m - Z.shiftl q (- e) in
  let half := Z.shiftl 1 (- e - 1) in
  if (half <? r) || ((r =? half) && Z.odd q) then q + 1 else q.

(** Python's [round(x)] on a float (one argument): the nearest integer, halves
    to even. *)
Definition py_round (x : float) : result Z :=
  match Prim2SF x with
  | S754_zero _ => Ok 0
  | S754_finite s m e =>
      let a := if 0 <=? e then Z.shiftl (Z.pos m) e else nearest_even m e in
      Ok (if s then - a else a)
  | S754_infinity _ => Raise OverflowError
  | S754_nan => Raise ValueError
  end.

(** A float of magnitude [a] with the sign bit [s]. *)
Definition signed (s : bool) (a : Z) : float :=
  if s then (- of_int a)%float else of_int a.

(** [np.floor]: integers (exponent at least 0), zeros, infinities and [nan]
    are returned as they are. *)
Definition floor (x : float) : float :=
  match Prim2SF x with
  | S754_finite s m e =>
      if 0 <=? e then x
      else of_int (Z.shiftl (if s then Z.neg m else Z.pos m) e)
  | _ => x
  end.

(** [np.round] with no decimals ([rint]): halves to even, a zero result keeps
    the sign of its argument. *)
Definition round (x : float) : float :=
  match Prim2SF x with
  | S754_finite s m e =>
      if 0 <=? e then x else signed s (nearest_even m e)
  | _ => x
  end.

(** [np.sign]: [-1], [0] or [1]; [nan] for [nan]. *)
Definition sign (x : float) : float :=
  if (x <? 0)%float then (-1)%float
  else if (0 <? x)%float then 1%float
  else if (x =? 0)%float then 0%float
  else x.

(** Reduction of an integer to the 16-bit two's-complement range. *)
Definition wrap16 (z : Z) : Z := (z + 32768) mod 65536 - 32768.

(** [.astype(np.int16)] on a [float64]: the C conversion, which truncates
    toward zero.  For a value outside the [int16] range C leaves the result
    undefined; the value taken here is the one of x86-64 builds (conversion
    to a 32-bit integer, low 16 bits kept; 0 for [nan], infinities and values
    beyond 32 bits).  Whatever the platform, the result is an [int16]. *)
Definition astype_int16 (x : float) : Z :=
  match Prim2SF x with
  | S754_finite s m e =>
      let t := trunc_finite s m e in
      if (- 2147483648 <=? t) && (t <=? 2147483647) then wrap16 t else 0
  | _ => 0
  end.

(** [int16 + int16] on arrays: the sum wraps modulo [2^16]. *)
Definition int16_add (a b : Z) : Z := wrap16 (a + b).

(** [(a * 0.5).astype(np.int16)] for an [int16] sample [a]: the product is a
    [float64]. *)
Definition int16_half (a : Z) : Z := astype_int16 (of_int a * 0.5)%float.

(** [np.arange(z, z + n)] as floats. *)
Fixpoint arange (z : Z) (n : nat) : list float :=
  match n with
  | O => []
  | S n' => of_int z :: arange (z + 1) n'
  end.

(** [y[-1] = v] on a non-empty array. *)
Definition set_last (v : float) (y : list float) : list float :=
  <[Nat.pred (length y) := v]> y.

(** [np.linspace(0, stop, num)] as NumPy computes it (endpoint included):
    [num < 0] raises [ValueError]; the samples are [i * step + 0] with
    [step = (stop - 0) / (num - 1)], computed as [(i / (num - 1)) * stop] when
    the step is zero, and the last sample is overwritten with [stop]. *)
Definition linspace (stop : float) (num : Z) : result (list float) :=
  if num <? 0 then Raise ValueError
  else
    let div := num - 1 in
    let delta := (stop - 0)%float in
    let y := arange 0 (Z.to_nat num) in
    let y :=
      if 0 <? div then
        let step := (delta / of_int div)%float in
        if (step =? 0)%float
        then map (fun v => (v / of_int div * delta)%float) y
        else map (fun v => (v * step)%float) y
      else map (fun v => (v * delta)%float) y in
    let y := map (fun v => (v + 0)%float) y in
    Ok (if 1 <? num then set_last stop y else y).

(** [np.roll(a, shift, axis=0)]: the row at [i] moves to [(i + shift) mod n]. *)
Definition roll {A} (a : list A) (shift : Z) : list A :=
  let n := Z.of_nat (length a) in
  if n =? 0 then a
  else
    let k := Z.to_nat (n - shift mod n) in
    drop k a ++ take k a.

(** The number of rows the slice [[:stop]] selects in an array of [n] rows
    (a negative [stop] counts from the end). *)
Definition slice_stop (stop : Z) (n : nat) : nat :=
  if stop <? 0 then Z.to_nat (Z.of_nat n + stop)
  else Nat.min (Z.to_nat stop) n.

(** [a[:stop] = v]. *)
Definition fill_prefix {A} (v : A) (stop : Z) (a : list A) : list A :=
  let k := slice_stop stop (length a) in
  replicate k v ++ drop k a.

End Np.

(** ** Module constants *)

Definition SAMPLE_RATE : Z := 44100.
Definition BIT_DEPTH : Z := 16.
Definition BUFFER_SIZE : Z := 1024.

(** [np.pi]. *)
Definition np_pi : float := 3.141592653589793%float.

(** The two functions of the maths library that the generator calls. *)
Record Libm : Type := {
  np_sin : float → float;
  np_tanh : float → float
}.

(** ** [class Synth] *)

(** [self.effects]: a dictionary with the four keys below, each a boolean. *)
Record Effects : Set := {
  distortion : bool;
  delay : bool;
  low_pass : bool;
  bit_crush : bool
}.

(** A row of the stereo [int16] array: left and right sample. *)
Abbreviation Frame := (Z * Z)%type.

(** What [pygame.sndarray.make_sound] is given: the stereo array. *)
Abbreviation Sound := (list Frame).

Record Synth : Set := {
  frequency : float;
  waveform : string;
  volume : float;
  playing : bool;
  sound : option Sound;
  current_note : option string;
  wave_points : list Z;
  effects : Effects;
  delay_time : float;
  distortion_amount : float;
  bit_crush_factor : Z
}.

(** [Synth.__init__]. *)
Definition Synth_init : Synth := {|
  frequency := 440;
  waveform := "sine";
  volume := 0.5;
  playing := false;
  sound := None;
  current_note := None;
  wave_points := [];
  effects := {| distortion := false; delay := false;
                low_pass := false; bit_crush := true |};
  delay_time := 0.3;
  distortion_amount := 2.0;
  bit_crush_factor := 4
|}.

Definition set_frequency (v : float) (s : Synth) : Synth :=
  {| frequency := v; waveform := waveform s; volume := volume s;
     playing := playing s; sound := sound s; current_note := current_note s;
     wave_points := wave_points s; effects := effects s;
     delay_time := delay_time s; distortion_amount := distortion_amount s;
     bit_crush_factor := bit_crush_factor s |}.

Definition set_waveform (v : string) (s : Synth) : Synth :=
  {| frequency := frequency s; waveform := v; volume := volume s;
     playing := playing s; sound := sound s; current_note := current_note s;
     wave_points := wave_points s; effects := effects s;
     delay_time := delay_time s; distortion_amount := distortion_amount s;
     bit_crush_factor := bit_crush_factor s |}.

Definition set_volume (v : float) (s : Synth) : Synth :=
  {| frequency := frequency s; waveform := waveform s; volume := v;
     playing := playing s; sound := sound s; current_note := current_note s;
     wave_points := wave_points s; effects := effects s;
     delay_time := delay_time s; distortion_amount := distortion_amount s;
     bit_crush_factor := bit_crush_factor s |}.

Definition set_playing (v : bool) (s : Synth) : Synth :=
  {| frequency := frequency s; waveform := waveform s; volume := volume s;
     playing := v; sound := sound s; current_note := current_note s;
     wave_points := wave_points s; effects := effects s;
     delay_time := delay_time s; distortion_amount := distortion_amount s;
     bit_crush_factor := bit_crush_factor s |}.

Definition set_sound (v : option Sound) (s : Synth) : Synth :=
  {| frequency := frequency s; waveform := waveform s; volume := volume s;
     playing := playing s; sound := v; current_note := current_note s;
     wave_points := wave_points s; effects := effects s;
     delay_time := delay_time s; distortion_amount := distortion_amount s;
     bit_crush_factor := bit_crush_factor s |}.

Definition set_current_note (v : option string) (s : Synth) : Synth :=
  {| frequency := frequency s; waveform := waveform s; volume := volume s;
     playing := playing s; sound := sound s; current_note := v;
     wave_points := wave_points s; effects := effects s;
     delay_time := delay_time s; distortion_amount := distortion_amount s;
     bit_crush_factor := bit_crush_factor s |}.

Definition set_wave_points (v : list Z) (s : Synth) : Synth :=
  {| frequency := frequency s; waveform := waveform s; volume := volume s;
     playing := playing s; sound := sound s; current_note := current_note s;
     wave_points := v; effects := effects s;
     delay_time := delay_time s; distortion_amount := distortion_amount s;
     bit_crush_factor := bit_crush_factor s |}.

Definition set_effects (v : Effects) (s : Synth) : Synth :=
  {| frequency := frequency s; waveform := waveform s; volume := volume s;
     playing := playing s; sound := sound s; current_note := current_note s;
     wave_points := wave_points s; effects := v;
     delay_time := delay_time s; distortion_amount := distortion_amount s;
     bit_crush_factor := bit_crush_factor s |}.

Definition set_delay_time (v : float) (s : Synth) : Synth :=
  {| frequency := frequency s; waveform := waveform s; volume := volume s;
     playing := playing s; sound := sound s; current_note := current_note s;
     wave_points := wave_points s; effects := effects s;
     delay_time := v; distortion_amount := distortion_amount s;
     bit_crush_factor := bit_crush_factor s |}.

(** A method of [Synth]: it reads and updates [self] and returns or raises.
    The state that comes with a [Raise] is the one at the raise. *)
Definition SynthM (A : Type) : Type := Synth → result A * Synth.

#[global] Instance SynthM_ret : MRet SynthM := λ A a s, (Ok a, s).
#[global] Instance SynthM_bind : MBind SynthM := λ A B f m s,
  match m s with
  | (Ok a, s') => f a s'
  | (Raise e, s') => (Raise e, s')
  end.

Definition get_self : SynthM Synth := λ s, (Ok s, s).
Definition update_self (f : Synth → Synth) : SynthM unit := λ s, (Ok tt, f s).
Definition lift {A} (r : result A) : SynthM A := λ s, (r, s).

Section Generator.

Variable libm : Libm.

#[local] Open Scope float_scope.

(** [2 ** n] for a Python [int] [n], as the float the array product converts
    it to ([2 ** n] is itself a float when [n] is negative).  Exact for
    [-1074 <= n <= 1023]. *)
Definition py_pow2 (n : Z) : float :=
  if (0 <=? n)%Z then Np.of_int (2 ^ n) else 1 / Np.of_int (2 ^ (- n)).

(** The base waveform of [generate_sample] at one time sample. *)
Definition sine_at (f t : float) : float :=
  np_sin libm (2 * np_pi * f * t).

Definition square_at (f t : float) : float :=
  Np.sign (np_sin libm (2 * np_pi * f * t)).

Definition sawtooth_at (f t : float) : float :=
  2 * (t * f - Np.floor (0.5 + t * f)).

Definition triangle_at (f t : float) : float :=
  2 * abs (2 * (t * f - Np.floor (t * f + 0.5))) - 1.

(** The [if]/[elif] chain on [self.waveform]; an unknown name gives a sine. *)
Definition base_wave (self : Synth) (t : list float) : list float :=
  if String.eqb (waveform self) "sine" then
    map (sine_at (frequency self)) t
  else if String.eqb (waveform self) "square" then
    map (square_at (frequency self)) t
  else if String.eqb (waveform self) "sawtooth" then
    map (sawtooth_at (frequency self)) t
  else if String.eqb (waveform self) "triangle" then
    map (triangle_at (frequency self)) t
  else
    map (sine_at (frequency self)) t.

(** The low-pass loop: [filtered[i] = alpha * wave[i] + (1 - alpha) *
    filtered[i-1]] written into the array [filtered]. *)
Definition low_pass_step (alpha : float) (wave filtered : list float)
    (i : nat) : list float :=
  <[i := alpha * default 0 (wave !! i)
         + (1 - alpha) * default 0 (filtered !! Nat.pred i)]> filtered.

(** The body of [if self.effects['low_pass']]: [filtered[0] = wave[0]] raises
    [IndexError] on an empty array. *)
Definition low_pass_filter (wave : list float) : result (list float) :=
  let alpha := 0.1 in
  let filtered := replicate (length wave) 0 in
  match wave !! 0%nat with
  | None => Raise IndexError
  | Some w0 =>
      let filtered := <[0%nat := w0]> filtered in
      Ok (foldl (low_pass_step alpha wave) filtered
            (seq 1 (Nat.pred (length wave))))
  end.

(** [(wave * 32767).astype(np.int16)]. *)
Definition to_int16 (wave : list float) : list Z :=
  map Np.astype_int16 (map (λ w, w * 32767) wave).

(** [np.column_stack((a, b))] of two arrays of one length. *)
Definition column_stack (a b : list Z) : list Frame := zip a b.

(** [(delayed * 0.5).astype(np.int16)] on the stereo array. *)
Definition halved (delayed : list Frame) : list Frame :=
  map (prod_map Np.int16_half Np.int16_half) delayed.

(** [a + b] on two stereo [int16] arrays of one shape. *)
Definition frames_add (a b : list Frame) : list Frame :=
  zip_with (λ x y, (Np.int16_add x.1 y.1, Np.int16_add x.2 y.2)) a b.

(** The body of [if self.effects['delay']] once [delay_samples] is known. *)
Definition mix_delay (stereo_wave : list Frame) (delay_samples : Z)
    : list Frame :=
  if (delay_samples <? Z.of_nat (length stereo_wave))%Z then
    let delayed := Np.roll stereo_wave delay_samples in
    let delayed := Np.fill_prefix (0%Z, 0%Z) delay_samples delayed in
    frames_add stereo_wave (halved delayed)
  else stereo_wave.

(** [Synth.generate_sample(self, length)].  The result is the stereo array
    handed to [pygame.sndarray.make_sound]. *)
Definition generate_sample (length : float) : SynthM Sound :=
  n ← lift (Np.py_int (Np.of_int SAMPLE_RATE * length));
  t ← lift (Np.linspace length n);
  self ← get_self;
  (* Generate base waveform *)
  let wave := base_wave self t in
  (* Apply effects *)
  let wave :=
    if distortion (effects self)
    then map (λ w, np_tanh libm (w * distortion_amount self)) wave
    else wave in
  let wave :=
    if bit_crush (effects self)
    then
      let levels := py_pow2 (bit_crush_factor self) in
      map (λ w, Np.round (w * levels) / levels) wave
    else wave in
  wave ← (if low_pass (effects self)
          then lift (low_pass_filter wave)
          else mret wave);
  (* Apply volume *)
  let wave := map (λ w, w * volume self) wave in
  (* Store wave points for visualization *)
  _ ← update_self (set_wave_points (to_int16 (take 300 wave)));
  (* Convert to 16-bit for Pygame compatibility *)
  let wave_16bit := to_int16 wave in
  (* Create stereo sound *)
  let stereo_wave := column_stack wave_16bit wave_16bit in
  (* Apply delay effect *)
  stereo_wave ← (if delay (effects self)
                 then
                   delay_samples ←
                     lift (Np.py_int (Np.of_int SAMPLE_RATE * delay_time self));
                   mret (mix_delay stereo_wave delay_samples)
                 else mret stereo_wave);
  mret stereo_wave.

(** [Synth.play_note(self, freq, note_name, waveform, duration)];
    [self.sound.play()] is the audio device's and leaves [self] as it is. *)
Definition play_note (freq : float) (note_name : string)
    (waveform : string) (duration : float) : SynthM unit :=
  _ ← update_self (set_frequency freq);
  _ ← update_self (set_waveform waveform);
  _ ← update_self (set_current_note (Some note_name));
  snd ← generate_sample duration;
  _ ← update_self (set_sound (Some snd));
  update_self (set_playing true).

(** [Synth.stop(self)]. *)
Definition stop : SynthM unit :=
  _ ← update_self (set_playing false);
  update_self (set_current_note None).

End Generator.

(** ** [class Recorder] *)

(** The recorder's arithmetic on clock readings: [time.time()] readings are
    floats, subtracted and passed to [round(_, 2)].  The recorder is written
    over this interface; [t_le] is the order of the readings. *)
Class Clock (Time : Type) : Type := {
  t_zero : Time;
  t_le : Time → Time → Prop;
  t_sub : Time → Time → Time;
  py_round2 : Time → Time
}.

(** What the ordering of recorded offsets rests on: subtraction of a fixed
    start and rounding to two decimals never swap two readings (both hold of
    IEEE subtraction and of Python's [round] on finite floats). *)
Class ClockLaws (Time : Type) `{Clock Time} : Prop := {
  t_le_preorder :: PreOrder t_le;
  t_sub_mono : ∀ a b s, t_le a b → t_le (t_sub a s) (t_sub b s);
  py_round2_mono : ∀ a b, t_le a b → t_le (py_round2 a) (py_round2 b)
}.

Section RecorderModel.

Context {Time : Type} `{Clock Time}.

(** An entry of [self.recorded_notes]: the dictionary with keys ['time'],
    ['note'], ['freq'] and ['wave']. *)
Record RecordedNote : Type := {
  time : Time;
  note : string;
  freq : float;
  wave : string
}.

Record Recorder : Type := {
  recording : bool;
  record_start_time : Time;
  recorded_notes : list RecordedNote;
  recordings_folder : string
}.

(** The dictionary [recording_data] that [save_recording] dumps as JSON. *)
Record RecordingData : Type := {
  timestamp : string;
  duration : Time;
  total_notes : nat;
  notes : list RecordedNote
}.

(** The files of the recordings folder, by path, each holding the document
    that was dumped into it, and the paths that [open(path, 'w')] refuses. *)
Record FileSystem : Type := {
  files : gmap string RecordingData;
  unwritable : gset string
}.

(** [Recorder.__init__].  [ensure_recordings_folder] creates the folder; the
    file system below holds files by path and has no directory to create. *)
Definition Recorder_init : Recorder := {|
  recording := false;
  record_start_time := t_zero;
  recorded_notes := [];
  recordings_folder := "recordings"
|}.

(** [Recorder.start_recording(self)], [now] being [time.time()]. *)
Definition start_recording (now : Time) (self : Recorder) : Recorder :=
  {| recording := true;
     record_start_time := now;
     recorded_notes := [];
     recordings_folder := recordings_folder self |}.

(** [Recorder.stop_recording(self)]. *)
Definition stop_recording (self : Recorder) : Recorder :=
  {| recording := false;
     record_start_time := record_start_time self;
     recorded_notes := recorded_notes self;
     recordings_folder := recordings_folder self |}.

(** [Recorder.add_note(self, note_name, frequency, waveform)], [now] being
    the reading of [time.time()] the call takes. *)
Definition add_note (now : Time) (note_name : string) (frequency : float)
    (waveform : string) (self : Recorder) : Recorder :=
  if recording self then
    let timestamp := t_sub now (record_start_time self) in
    {| recording := recording self;
       record_start_time := record_start_time self;
       recorded_notes :=
         recorded_notes self ++
           [ {| time := py_round2 timestamp;
                note := note_name;
                freq := frequency;
                wave := waveform |} ];
       recordings_folder := recordings_folder self |}
  else self.

(** [os.path.join(folder, filename)] for a relative [filename]. *)
Definition path_join (folder filename : string) : string :=
  folder +:+ "/" +:+ filename.

(** [Recorder.save_recording(self)]: [stamp] is
    [datetime.now().strftime("%Y%m%d_%H%M%S")] and [now] is [time.time()].
    An exception in the [with open(...)] block is caught and gives [False];
    it is taken to come from [open] itself, which then creates no file. *)
Definition save_recording (stamp : string) (now : Time) (self : Recorder)
    (fs : FileSystem) : bool * Recorder * FileSystem :=
  match recorded_notes self with
  | [] => (false, self, fs)
  | _ :: _ =>
      let filename := "recording_" +:+ stamp +:+ ".json" in
      let filepath := path_join (recordings_folder self) filename in
      let recording_data :=
        {| timestamp := stamp;
           duration := py_round2 (t_sub now (record_start_time self));
           total_notes := length (recorded_notes self);
           notes := recorded_notes self |} in
      if decide (filepath ∈ unwritable fs) then (false, self, fs)
      else
        (true, self,
         {| files := <[filepath := recording_data]> (files fs);
            unwritable := unwritable fs |})
  end.

(** [Recorder.load_recording(self, filename)]: the document, or [None] when
    reading fails. *)
Definition load_recording (filename : string) (self : Recorder)
    (fs : FileSystem) : option RecordingData :=
  files fs !! path_join (recordings_folder self) filename.

(** One [add_note] call with the clock reading it takes. *)
Record NoteCall : Type := {
  call_now : Time;
  call_note : string;
  call_freq : float;
  call_wave : string
}.

Definition run_call (self : Recorder) (c : NoteCall) : Recorder :=
  add_note (call_now c) (call_note c) (call_freq c) (call_wave c) self.

(** The event a call leaves in a session started at [start]. *)
Definition event_of (start : Time) (c : NoteCall) : RecordedNote :=
  {| time := py_round2 (t_sub (call_now c) start);
     note := call_note c;
     freq := call_freq c;
     wave := call_wave c |}.

End RecorderModel.

Arguments RecordedNote Time : clear implicits.
Arguments Recorder Time : clear implicits.
Arguments RecordingData Time : clear implicits.
Arguments FileSystem Time : clear implicits.
Arguments NoteCall Time : clear implicits.

(** ** Two clocks *)

(** The program's clock: readings are floats. [round(x, 2)] is the float
    nearest to the decimal with two places nearest to [x] (halves to even);
    written here for [|x| < 2^46], where that decimal times 100 is an integer a
    float holds exactly. *)
Definition float_round2 (x : float) : float :=
  match Prim2SF x with
  | S754_finite s m e =>
      if (0 <=? e)%Z then x
      else (Np.signed s (Np.nearest_even (100 * m) e) / 100)%float
  | _ => x
  end.

#[global] Instance float_clock : Clock float := {|
  t_zero := 0%float;
  t_le := λ a b, (a <=? b)%float = true;
  t_sub := PrimFloat.sub;
  py_round2 := float_round2
|}.

(** An exact clock: readings are rationals, in seconds. *)
Module ExactClock.

#[local] Open Scope Q_scope.

(** The integer nearest to [q], halves to even. *)
Definition nearest (q : Q) : Z :=
  let k := Qfloor q in
  match Qcompare (q - inject_Z k) (1 # 2) with
  | Lt => k
  | Gt => (k + 1)%Z
  | Eq => if Z.even k then k else (k + 1)%Z
  end.

Definition round2 (q : Q) : Q := nearest (q * 100) # 100.

#[global] Instance clock : Clock Q := {|
  t_zero := 0;
  t_le := Qle;
  t_sub := Qminus;
  py_round2 := round2
|}.

End ExactClock.

(** ** The effects chain in the specification's words *)

Section SpecPipeline.

Variable libm : Libm.

#[local] Open Scope float_scope.

(** "apply [tanh(sample * driveAmount)] per sample". *)
Definition spec_distortion (driveAmount : float) (x : list float)
    : list float :=
  map (λ sample, np_tanh libm (sample * driveAmount)) x.

(** "quantize to [2^bits] levels via [round(sample * levels) / levels]". *)
Definition spec_bit_crush (bits : Z) (x : list float) : list float :=
  let levels := py_pow2 bits in
  map (λ sample, Np.round (sample * levels) / levels) x.

(** "[y_i = alpha * x_i + (1 - alpha) * y_(i-1)]", given [y_(i-1)]. *)
Fixpoint spec_iir (alpha y_prev : float) (x : list float) : list float :=
  match x with
  | [] => []
  | x_i :: rest =>
      let y_i := alpha * x_i + (1 - alpha) * y_prev in
      y_i :: spec_iir alpha y_i rest
  end.

(** "a single-pole IIR filter ... [y_0 = x_0]". *)
Definition spec_low_pass (alpha : float) (x : list float) : list float :=
  match x with
  | [] => []
  | x_0 :: rest => x_0 :: spec_iir alpha x_0 rest
  end.

(** Steps 3 to 6: distortion, then bit-crush, then low-pass, each if enabled
    and each on the previous stage's output, then the volume. *)
Definition spec_mono_pipeline (self : Synth) (x : list float) : list float :=
  let x := if distortion (effects self)
           then spec_distortion (distortion_amount self) x else x in
  let x := if bit_crush (effects self)
           then spec_bit_crush (bit_crush_factor self) x else x in
  let x := if low_pass (effects self)
           then spec_low_pass 0.1 x else x in
  map (λ sample, sample * volume self) x.

End SpecPipeline.

(** Step 1 in the specification's words: "[t_i = i / sampleRate]". *)
Definition spec_time (i : Z) : float :=
  (Np.of_int i / Np.of_int SAMPLE_RATE)%float.

(** ** A maths library for running examples

    Polynomial and rational approximations of the sine and of the hyperbolic
    tangent.  Every statement below is proved for all of [Libm]; this instance
    only serves to run the generator on concrete inputs, and those use the
    sawtooth wave without distortion, or an empty array, which call neither
    function (see [generate_sample_without_libm] and
    [generate_sample_empty_without_libm]). *)
Module ExampleLibm.

#[local] Open Scope float_scope.

Definition sin_approx (x : float) : float :=
  let r := x - 2 * np_pi * Np.round (x / (2 * np_pi)) in
  let r2 := r * r in
  r * (1 - r2 / 6 * (1 - r2 / 20 * (1 - r2 / 42 * (1 - r2 / 72 *
    (1 - r2 / 110 * (1 - r2 / 156 * (1 - r2 / 210))))))).

Definition tanh_approx (x : float) : float :=
  if 5 <? abs x then Np.sign x
  else
    let x2 := x * x in
    x * (135135 + x2 * (17325 + x2 * (378 + x2)))
      / (135135 + x2 * (62370 + x2 * (3150 + x2 * 28))).

Definition libm : Libm := {| np_sin := sin_approx; np_tanh := tanh_approx |}.

End ExampleLibm.

(** ** The tables and the event handling of the main loop *)

(** pygame's key codes: those of the characters. *)
Module pygame.

Definition K_ESCAPE : Z := 27.
Definition K_SPACE : Z := 32.
Definition K_0 : Z := 48.
Definition K_1 : Z := 49.
Definition K_2 : Z := 50.
Definition K_3 : Z := 51.
Definition K_4 : Z := 52.
Definition K_a : Z := 97.
Definition K_d : Z := 100.
Definition K_e : Z := 101.
Definition K_f : Z := 102.
Definition K_g : Z := 103.
Definition K_h : Z := 104.
Definition K_j : Z := 106.
Definition K_k : Z := 107.
Definition K_r : Z := 114.
Definition K_s : Z := 115.
Definition K_t : Z := 116.
Definition K_u : Z := 117.
Definition K_w : Z := 119.
Definition K_y : Z := 121.

End pygame.

Abbreviation Color := (Z * Z * Z)%type.

Definition BACKGROUND : Color := (10, 15, 25)%Z.
Definition PANEL_DARK : Color := (20, 25, 40)%Z.
Definition PANEL_LIGHT : Color := (30, 35, 55)%Z.
Definition NEON_BLUE : Color := (0, 200, 255)%Z.
Definition NEON_PURPLE : Color := (180, 70, 255)%Z.
Definition NEON_GREEN : Color := (0, 255, 150)%Z.
Definition NEON_RED : Color := (255, 50, 100)%Z.
Definition NEON_YELLOW : Color := (255, 220, 0)%Z.
Definition TEXT_LIGHT : Color := (220, 220, 240)%Z.
Definition TEXT_DIM : Color := (150, 160, 180)%Z.

(** An entry of [keys]. *)
Record KeyInfo : Set := {
  key_code : Z;
  key_note : string;
  key_freq : float;
  key_color : Color;
  key_pos : Z * Z
}.

Definition keys : list KeyInfo := [
  {| key_code := pygame.K_a; key_note := "C"; key_freq := 261.63;
     key_color := NEON_BLUE; key_pos := (100, 500)%Z |};
  {| key_code := pygame.K_w; key_note := "C#"; key_freq := 277.18;
     key_color := NEON_PURPLE; key_pos := (135, 500)%Z |};
  {| key_code := pygame.K_s; key_note := "D"; key_freq := 293.66;
     key_color := NEON_BLUE; key_pos := (170, 500)%Z |};
  {| key_code := pygame.K_e; key_note := "D#"; key_freq := 311.13;
     key_color := NEON_PURPLE; key_pos := (205, 500)%Z |};
  {| key_code := pygame.K_d; key_note := "E"; key_freq := 329.63;
     key_color := NEON_BLUE; key_pos := (240, 500)%Z |};
  {| key_code := pygame.K_f; key_note := "F"; key_freq := 349.23;
     key_color := NEON_GREEN; key_pos := (275, 500)%Z |};
  {| key_code := pygame.K_t; key_note := "F#"; key_freq := 369.99;
     key_color := NEON_PURPLE; key_pos := (310, 500)%Z |};
  {| key_code := pygame.K_g; key_note := "G"; key_freq := 392.00;
     key_color := NEON_GREEN; key_pos := (345, 500)%Z |};
  {| key_code := pygame.K_y; key_note := "G#"; key_freq := 415.30;
     key_color := NEON_PURPLE; key_pos := (380, 500)%Z |};
  {| key_code := pygame.K_h; key_note := "A"; key_freq := 440.00;
     key_color := NEON_RED; key_pos := (415, 500)%Z |};
  {| key_code := pygame.K_u; key_note := "A#"; key_freq := 466.16;
     key_color := NEON_PURPLE; key_pos := (450, 500)%Z |};
  {| key_code := pygame.K_j; key_note := "B"; key_freq := 493.88;
     key_color := NEON_RED; key_pos := (485, 500)%Z |};
  {| key_code := pygame.K_k; key_note := "C5"; key_freq := 523.25;
     key_color := NEON_YELLOW; key_pos := (520, 500)%Z |}
].

(** An entry of [waveforms]. *)
Record WaveformInfo : Set := {
  wf_name : string;
  wf_color : Color
}.

Definition waveforms : list WaveformInfo := [
  {| wf_name := "sine"; wf_color := NEON_BLUE |};
  {| wf_name := "square"; wf_color := NEON_GREEN |};
  {| wf_name := "sawtooth"; wf_color := NEON_RED |};
  {| wf_name := "triangle"; wf_color := NEON_YELLOW |}
].

(** An entry of [pedals]. *)
Record Pedal : Set := {
  pedal_key : Z;
  pedal_name : string;
  pedal_effect : string;
  pedal_color : Color
}.

Definition pedals : list Pedal := [
  {| pedal_key := pygame.K_1; pedal_name := "DISTORTION";
     pedal_effect := "distortion"; pedal_color := NEON_RED |};
  {| pedal_key := pygame.K_2; pedal_name := "DELAY";
     pedal_effect := "delay"; pedal_color := NEON_PURPLE |};
  {| pedal_key := pygame.K_3; pedal_name := "LOW PASS";
     pedal_effect := "low_pass"; pedal_color := NEON_BLUE |};
  {| pedal_key := pygame.K_4; pedal_name := "BIT CRUSH";
     pedal_effect := "bit_crush"; pedal_color := NEON_GREEN |}
].

(** [self.effects[k]]: [None] stands for [KeyError]. *)
Definition effects_getitem (k : string) (e : Effects) : option bool :=
  if String.eqb k "distortion" then Some (distortion e)
  else if String.eqb k "delay" then Some (delay e)
  else if String.eqb k "low_pass" then Some (low_pass e)
  else if String.eqb k "bit_crush" then Some (bit_crush e)
  else None.

(** [self.effects[k] = v] for one of the four keys the dictionary has. *)
Definition effects_setitem (k : string) (v : bool) (e : Effects) : Effects :=
  if String.eqb k "distortion" then
    {| distortion := v; delay := delay e;
       low_pass := low_pass e; bit_crush := bit_crush e |}
  else if String.eqb k "delay" then
    {| distortion := distortion e; delay := v;
       low_pass := low_pass e; bit_crush := bit_crush e |}
  else if String.eqb k "low_pass" then
    {| distortion := distortion e; delay := delay e;
       low_pass := v; bit_crush := bit_crush e |}
  else if String.eqb k "bit_crush" then
    {| distortion := distortion e; delay := delay e;
       low_pass := low_pass e; bit_crush := v |}
  else e.

(** [l[i]] on a Python list: a negative index counts from the end; [None]
    stands for [IndexError]. *)
Definition py_getitem {A} (l : list A) (i : Z) : option A :=
  if (0 <=? i)%Z then l !! Z.to_nat i
  else if (- Z.of_nat (length l) <=? i)%Z
       then l !! Z.to_nat (Z.of_nat (length l) + i)
       else None.

(** What ends the program: an exception of the synthesizer, or a [KeyError]. *)
Inductive AppError : Set :=
  | Raised (e : PyError)
  | KeyError (k : string).

Inductive outcome (A : Type) : Type :=
  | Done (a : A)
  | Crashed (e : AppError).

Arguments Done {A} a.
Arguments Crashed {A} e.

#[global] Instance outcome_ret : MRet outcome := @Done.
#[global] Instance outcome_bind : MBind outcome := λ A B f r,
  match r with
  | Done a => f a
  | Crashed e => Crashed e
  end.

(** An event of [pygame.event.get()]. *)
Inductive Event : Set :=
  | QUIT
  | KEYDOWN (key : Z)
  | OtherEvent.

(** The module's variables that the event handling reads and assigns. *)
Record App (Time : Type) : Type := {
  synth : Synth;
  recorder : Recorder Time;
  current_waveform : Z;
  save_message_time : Time;
  running : bool
}.

Arguments synth {Time} a.
Arguments recorder {Time} a.
Arguments current_waveform {Time} a.
Arguments save_message_time {Time} a.
Arguments running {Time} a.

(** What the handling of one event may read of the outside: the readings of
    [time.time()] in [add_note], in [start_recording], in [save_recording]
    and after a save, and the stamp of [datetime.now()]. *)
Record Readings (Time : Type) : Type := {
  at_add_note : Time;
  at_start : Time;
  at_save_stamp : string;
  at_save : Time;
  at_saved : Time
}.

Arguments at_add_note {Time} r.
Arguments at_start {Time} r.
Arguments at_save_stamp {Time} r.
Arguments at_save {Time} r.
Arguments at_saved {Time} r.

Section MainLoop.

Variable libm : Libm.
Context {Time : Type} `{Clock Time}.

(** The module's variables when the loop starts. *)
Definition App_init : App Time := {|
  synth := Synth_init;
  recorder := Recorder_init;
  current_waveform := 0;
  save_message_time := t_zero;
  running := true
|}.

Definition with_synth (v : Synth) (app : App Time) : App Time :=
  {| synth := v; recorder := recorder app;
     current_waveform := current_waveform app;
     save_message_time := save_message_time app; running := running app |}.

Definition with_recorder (v : Recorder Time) (app : App Time) : App Time :=
  {| synth := synth app; recorder := v;
     current_waveform := current_waveform app;
     save_message_time := save_message_time app; running := running app |}.

Definition with_current_waveform (v : Z) (app : App Time) : App Time :=
  {| synth := synth app; recorder := recorder app;
     current_waveform := v;
     save_message_time := save_message_time app; running := running app |}.

Definition with_save_message_time (v : Time) (app : App Time) : App Time :=
  {| synth := synth app; recorder := recorder app;
     current_waveform := current_waveform app;
     save_message_time := v; running := running app |}.

Definition with_running (v : bool) (app : App Time) : App Time :=
  {| synth := synth app; recorder := recorder app;
     current_waveform := current_waveform app;
     save_message_time := save_message_time app; running := v |}.

(** [waveforms[current_waveform]['name']]. *)
Definition current_waveform_name (app : App Time) : outcome string :=
  match py_getitem waveforms (current_waveform app) with
  | Some wf => Done (wf_name wf)
  | None => Crashed (Raised IndexError)
  end.

(** "Piano keys": the first entry of [keys] with the event's key is played,
    and recorded if a recording is on. *)
Definition piano_keys (key : Z) (env : Readings Time) (app : App Time)
    : outcome (App Time) :=
  match find (λ key_info, (key =? key_code key_info)%Z) keys with
  | None => Done app
  | Some key_info =>
      name ← current_waveform_name app;
      match play_note libm (key_freq key_info) (key_note key_info) name 1.0
              (synth app) with
      | (Raise e, _) => Crashed (Raised e)
      | (Ok _, synth') =>
          let app := with_synth synth' app in
          if recording (recorder app) then
            name ← current_waveform_name app;
            Done (with_recorder
                    (add_note (at_add_note env) (key_note key_info)
                       (key_freq key_info) name (recorder app)) app)
          else Done app
      end
  end.

(** "Waveform change". *)
Definition waveform_change (key : Z) (app : App Time) : App Time :=
  if (key =? pygame.K_SPACE)%Z then
    with_current_waveform
      ((current_waveform app + 1) `mod` Z.of_nat (length waveforms))%Z app
  else app.

(** [synth.effects[k] = not synth.effects[k]]. *)
Definition toggle_effect (k : string) (app : App Time) : outcome (App Time) :=
  match effects_getitem k (effects (synth app)) with
  | Some v =>
      Done (with_synth
              (set_effects (effects_setitem k (negb v) (effects (synth app)))
                 (synth app)) app)
  | None => Crashed (KeyError k)
  end.

(** "Effect pedals": every pedal with the event's key is toggled. *)
Definition effect_pedals (key : Z) (app : App Time) : outcome (App Time) :=
  foldl (λ acc pedal,
           app ← acc;
           if (key =? pedal_key pedal)%Z
           then toggle_effect (pedal_effect pedal) app
           else Done app)
        (Done app) pedals.

(** "Recording controls". *)
Definition recording_controls (key : Z) (env : Readings Time)
    (app : App Time) : App Time :=
  if (key =? pygame.K_r)%Z then
    if recording (recorder app)
    then with_recorder (stop_recording (recorder app)) app
    else with_recorder (start_recording (at_start env) (recorder app)) app
  else app.

(** "Save recording" and, on any other key, "Exit". *)
Definition save_or_exit (key : Z) (env : Readings Time) (app : App Time)
    (fs : FileSystem Time) : App Time * FileSystem Time :=
  if (key =? pygame.K_s)%Z then
    match recorded_notes (recorder app) with
    | _ :: _ =>
        if negb (recording (recorder app)) then
          let '(saved, recorder', fs') :=
            save_recording (at_save_stamp env) (at_save env)
              (recorder app) fs in
          let app := with_recorder recorder' app in
          if saved
          then (with_save_message_time (at_saved env) app, fs')
          else (app, fs')
        else (app, fs)
    | [] => (app, fs)
    end
  else if (key =? pygame.K_ESCAPE)%Z then (with_running false app, fs)
  else (app, fs).

(** The body of [elif event.type == pygame.KEYDOWN]. *)
Definition on_keydown (key : Z) (env : Readings Time) (app : App Time)
    (fs : FileSystem Time) : outcome (App Time * FileSystem Time) :=
  app ← piano_keys key env app;
  let app := waveform_change key app in
  app ← effect_pedals key app;
  let app := recording_controls key env app in
  Done (save_or_exit key env app fs).

(** The body of [for event in pygame.event.get()]. *)
Definition handle_event (event : Event) (env : Readings Time)
    (app : App Time) (fs : FileSystem Time)
    : outcome (App Time * FileSystem Time) :=
  match event with
  | QUIT => Done (with_running false app, fs)
  | KEYDOWN key => on_keydown key env app fs
  | OtherEvent => Done (app, fs)
  end.

(** The events of the loop, in the order they are handled. *)
Definition handle_events (events : list (Event * Readings Time))
    (app : App Time) (fs : FileSystem Time)
    : outcome (App Time * FileSystem Time) :=
  foldl (λ acc ev,
           '(app, fs) ← acc;
           handle_event ev.1 ev.2 app fs)
        (Done (app, fs)) events.

End MainLoop.

(** ** Sessions of the recorder *)

(** One more fact of the clock: a reading minus itself, rounded, is not below
    zero (it is [0.0] for every finite float). *)
Class ClockOrigin (Time : Type) `{Clock Time} : Prop := {
  t_origin : ∀ a, t_le t_zero (py_round2 (t_sub a a))
}.

(** A call of one of the recorder's three session methods, with the clock
    reading it takes. *)
Inductive RecorderOp (Time : Type) : Type :=
  | OpStart (now : Time)
  | OpStop
  | OpAdd (c : NoteCall Time).

Arguments OpStart {Time} now.
Arguments OpStop {Time}.
Arguments OpAdd {Time} c.

Section Sessions.

Context {Time : Type} `{Clock Time}.

Definition run_op (self : Recorder Time) (op : RecorderOp Time)
    : Recorder Time :=
  match op with
  | OpStart now => start_recording now self
  | OpStop => stop_recording self
  | OpAdd c => run_call self c
  end.

(** The clock readings of a run of calls, in call order. *)
Definition op_readings (ops : list (RecorderOp Time)) : list Time :=
  flat_map (λ op, match op with
                  | OpStart now => [now]
                  | OpStop => []
                  | OpAdd c => [call_now c]
                  end) ops.

(** The [add_note] calls of a run, in call order. *)
Definition op_calls (ops : list (RecorderOp Time)) : list (NoteCall Time) :=
  flat_map (λ op, match op with
                  | OpAdd c => [c]
                  | _ => []
                  end) ops.

(** The name [save_recording] gives the file written at [stamp]. *)
Definition recording_filename (stamp : string) : string :=
  "recording_" +:+ stamp +:+ ".json".

End Sessions.

(** ** What a frame draws

    The drawing functions, as what they compute before they hand it to
    pygame: the alpha values, the radii and the points.  The two animation
    globals, [wave_animation_offset] and [note_animation_alpha], are passed
    in and returned. *)

(** [range(n)] and [range(n, 0, -1)]. *)
Definition py_range (n : Z) : list Z := seqZ 0 n.

Definition py_range_down (n : Z) : list Z := (λ k, n - k)%Z <$> seqZ 0 n.

(** [if current_note:] on [None] or a string. *)
Definition py_truthy (s : option string) : bool :=
  match s with
  | Some s => negb (String.eqb s "")
  | None => false
  end.

(** [draw_glowing_circle(surface, color, pos, radius, glow_size)]: the side
    of the temporary surface, the centre of the circles on it, the glow
    circles in the order drawn, each with its alpha and its radius, and the
    radius of the main circle. *)
Record Glow : Set := {
  glow_side : Z;
  glow_center : Z;
  glow_layers : list (Z * Z);
  glow_disc : Z
}.

Definition draw_glowing_circle (radius glow_size : Z) : Glow :=
  {| glow_side := radius * 2 + glow_size * 2;
     glow_center := radius + glow_size;
     glow_layers :=
       (λ r, (50 - r * (50 `div` glow_size), radius + r)%Z)
         <$> py_range_down glow_size;
     glow_disc := radius |}.

(** The ordinate of a point of the waveform:
    [y + height//2 + (value / 32767) * (height//2 - 20)], [value] being an
    [int16] of [wave_points]. *)
Definition normalized_y (y height value : Z) : float :=
  (Np.of_int (y + height `div` 2)
   + (Np.of_int value / 32767) * Np.of_int (height `div` 2 - 20))%float.

(** [draw_wave_visualization(surface, wave_points, x, y, width, height)]:
    the new [wave_animation_offset] and the points of the polyline; [None]
    stands for [IndexError].  Without preview there are no points and the
    offset stays. *)
Definition draw_wave_visualization (wave_animation_offset : Z)
    (wave_points : list Z) (x y width height : Z)
    : option (Z * list (Z * float)) :=
  if decide (length wave_points = 0%nat) then Some (wave_animation_offset, [])
  else
    let len := Z.of_nat (length wave_points) in
    let wave_animation_offset := ((wave_animation_offset + 2) `mod` len)%Z in
    points ← mapM (λ i,
                     let idx := ((i + wave_animation_offset) `mod` len)%Z in
                     value ← py_getitem wave_points idx;
                     Some ((x + i)%Z, normalized_y y height value))
                  (py_range width);
    Some (wave_animation_offset, points).

(** The segments drawn between the points: [points[i]] to [points[i+1]] for
    [i] in [range(len(points) - 1)], when there is more than one point. *)
Definition wave_segments {A} (points : list A) : list (A * A) :=
  zip points (drop 1 points).

(** [draw_note_display(surface, current_note)]: the new
    [note_animation_alpha] and, when the note is drawn, its text and the
    alpha given to [set_alpha]. *)
Definition draw_note_display (current_note : option string)
    (note_animation_alpha : Z) : Z * option (string * Z) :=
  let note_animation_alpha :=
    if py_truthy current_note
    then Z.min 255 (note_animation_alpha + 15)
    else Z.max 0 (note_animation_alpha - 8) in
  (note_animation_alpha,
   match current_note with
   | Some text =>
       if (0 <? note_animation_alpha)%Z && py_truthy current_note
       then Some (text, note_animation_alpha)
       else None
   | None => None
   end).

(** The rectangle of the waveform panel in the main loop:
    [draw_wave_visualization(screen, synth.wave_points, 100, 220, 400, 120)]. *)
Definition in_wave_panel (p : Z * float) : bool :=
  (100 <=? p.1)%Z && (p.1 <? 100 + 400)%Z
  && (220 <=? p.2)%float && (p.2 <=? 220 + 120)%float.

(** A check on the [n] integers from [z] on. *)
Fixpoint all_from (P : Z → bool) (z : Z) (n : nat) : bool :=
  match n with
  | O => true
  | S n' => P z && all_from P (z + 1)%Z n'
  end.

(** ** Vocabulary of the statements *)

(** Membership of the [int16] range. *)
Definition is_int16 (z : Z) : Prop := (-32768 ≤ z ≤ 32767)%Z.

Definition frame_int16 (f : Frame) : Prop := is_int16 f.1 ∧ is_int16 f.2.

(** The check that halving an [int16] is the quotient truncated toward zero,
    on the [n] integers from [z] on. *)
Fixpoint half_ok_from (z : Z) (n : nat) : bool :=
  match n with
  | O => true
  | S n' => (Np.int16_half z =? z ÷ 2)%Z && half_ok_from (z + 1)%Z n'
  end.

(** [int(SAMPLE_RATE * length)]: the number of samples asked of
    [np.linspace]. *)
Definition sample_count (length : float) : result Z :=
  Np.py_int (Np.of_int SAMPLE_RATE * length)%float.

(** [int(SAMPLE_RATE * self.delay_time)]. *)
Definition delay_samples_of (self : Synth) : result Z :=
  Np.py_int (Np.of_int SAMPLE_RATE * delay_time self)%float.

(** [self] with the delay pedal off, everything else as it is. *)
Definition without_delay (self : Synth) : Synth :=
  set_effects
    {| distortion := distortion (effects self);
       delay := false;
       low_pass := low_pass (effects self);
       bit_crush := bit_crush (effects self) |} self.

(** Row [i] of a returned array. *)
Definition frame_at (r : result Sound) (i : nat) : option Frame :=
  match r with
  | Ok buf => buf !! i
  | Raise _ => None
  end.

(** The 16-bit mono samples of a run over the time samples [t]: the
    specification's chain on the base waveform, then the conversion. *)
Definition mono_16bit (libm : Libm) (self : Synth) (t : list float) : list Z :=
  to_int16 (spec_mono_pipeline libm self (base_wave libm self t)).

(** The outcome of a run over the time samples [t]: the preview is stored,
    the mono samples are doubled into rows, and the delay, if enabled, is
    mixed in. *)
Definition rendered (libm : Libm) (self : Synth) (t : list float)
    : result Sound * Synth :=
  let wave_16bit := mono_16bit libm self t in
  let self' := set_wave_points (take 300 wave_16bit) self in
  let stereo_wave := column_stack wave_16bit wave_16bit in
  if delay (effects self) then
    match delay_samples_of self with
    | Ok d => (Ok (mix_delay stereo_wave d), self')
    | Raise e => (Raise e, self')
    end
  else (Ok stereo_wave, self').

(** Rows whose two channels hold one value. *)
Definition dual_mono (f : Frame) : Prop := f.1 = f.2.

(** The key codes that the handler tests. *)
Definition bound_keys : list Z :=
  map key_code keys ++ [pygame.K_SPACE] ++ map pedal_key pedals
    ++ [pygame.K_r; pygame.K_s; pygame.K_ESCAPE].

Section StateVocabulary.

Context {Time : Type} `{Clock Time}.

(** What every state of a session keeps: the recorded notes are the events of
    some calls, made in order at readings not before the start. *)
Definition logged (self : Recorder Time) (cs : list (NoteCall Time)) : Prop :=
  recorded_notes self = map (event_of (record_start_time self)) cs
  ∧ StronglySorted t_le (map call_now cs)
  ∧ Forall (λ c, t_le (record_start_time self) (call_now c)) cs.

(** What the event handling keeps: the selected waveform is one of the four,
    and the delay in samples is defined. *)
Definition app_ready (app : App Time) : Prop :=
  (0 ≤ current_waveform app < 4)%Z
  ∧ is_ok (delay_samples_of (synth app)) = true.

(** What no block of the handler undoes or touches. *)
Definition app_kept (a b : App Time) : Prop :=
  volume (synth b) = volume (synth a)
  ∧ delay_time (synth b) = delay_time (synth a)
  ∧ distortion_amount (synth b) = distortion_amount (synth a)
  ∧ bit_crush_factor (synth b) = bit_crush_factor (synth a)
  ∧ recordings_folder (recorder b) = recordings_folder (recorder a)
  ∧ (is_Some (current_note (synth a)) → is_Some (current_note (synth b)))
  ∧ (playing (synth a) = true → playing (synth b) = true)
  ∧ (running a = false → running b = false).

(** The files after are the files before, but for recordings saved under
    one of [stamps] in [folder]. *)
Definition files_kept (stamps : list string) (folder : string)
    (fs fs' : FileSystem Time) : Prop :=
  unwritable fs' = unwritable fs
  ∧ ∀ p,
      files fs' !! p = files fs !! p
      ∨ ∃ stamp d,
          stamp ∈ stamps
          ∧ p = path_join folder (recording_filename stamp)
          ∧ (p ∉ unwritable fs)
          ∧ files fs' !! p = Some d
          ∧ timestamp d = stamp
          ∧ notes d ≠ []
          ∧ total_notes d = length (notes d).

End StateVocabulary.

(** A recorder of the exact clock that holds one note, and an empty file
    system. *)
Definition one_note_recorder : Recorder Q :=
  stop_recording
    (add_note 20.5%Q "A" 440 "sine" (start_recording 20%Q Recorder_init)).

Definition no_files : FileSystem Q := {| files := ∅; unwritable := ∅ |}.

(** * Properties *)

(** ** The 16-bit conversions *)

Section Int16.

#[local] Open Scope Z_scope.

Lemma wrap16_range z : is_int16 (Np.wrap16 z).
Proof.
  unfold is_int16, Np.wrap16.
  pose proof (Z.mod_pos_bound (z + 32768) 65536). lia.
Qed.

Lemma wrap16_id z : is_int16 z → Np.wrap16 z = z.
Proof.
  unfold is_int16, Np.wrap16. intros Hz.
  rewrite Z.mod_small; lia.
Qed.

Lemma wrap16_congruent z : ∃ k, Np.wrap16 z = z + 65536 * k.
Proof.
  unfold Np.wrap16. exists (- ((z + 32768) `div` 65536)).
  pose proof (Z.div_mod (z + 32768) 65536). lia.
Qed.

Lemma astype_int16_range x : is_int16 (Np.astype_int16 x).
Proof.
  unfold Np.astype_int16.
  destruct (Prim2SF x); try (unfold is_int16; lia).
  case_match; [apply wrap16_range | unfold is_int16; lia].
Qed.

Lemma int16_add_range a b : is_int16 (Np.int16_add a b).
Proof. apply wrap16_range. Qed.

Lemma half_ok_from_sound n : ∀ z,
  half_ok_from z n = true →
  ∀ k, z ≤ k < z + Z.of_nat n → Np.int16_half k = k ÷ 2.
Proof.
  induction n as [|n IH]; intros z Hok k Hk; [lia|].
  simpl in Hok. apply andb_prop in Hok as [Hz Hrest].
  destruct (decide (k = z)) as [->|Hne].
  - by apply Z.eqb_eq.
  - apply (IH (z + 1)); [done | lia].
Qed.

Lemma int16_half_quot z : is_int16 z → Np.int16_half z = z ÷ 2.
Proof.
  intros Hz.
  apply (half_ok_from_sound (Z.to_nat 65536) (-32768)).
  - vm_compute. reflexivity.
  - unfold is_int16 in Hz. lia.
Qed.

Lemma int16_half_range z : is_int16 (Np.int16_half z).
Proof. apply astype_int16_range. Qed.

Lemma int16_half_0 : Np.int16_half 0 = 0.
Proof. vm_compute. reflexivity. Qed.

Lemma int16_add_0_r a : is_int16 a → Np.int16_add a 0 = a.
Proof. intros Ha. unfold Np.int16_add. rewrite Z.add_0_r. by apply wrap16_id. Qed.

End Int16.

(** ** Arrays *)

Section Arrays.

Lemma map_fmap {A B} (f : A → B) (l : list A) : map f l = f <$> l.
Proof. induction l as [|x l IH]; simpl; [done | by rewrite IH]. Qed.

Lemma lookup_map {A B} (f : A → B) (l : list A) (i : nat) :
  map f l !! i = f <$> (l !! i).
Proof. rewrite map_fmap. apply list_lookup_fmap. Qed.

Lemma take_map {A B} (f : A → B) (l : list A) (n : nat) :
  take n (map f l) = map f (take n l).
Proof. rewrite !map_fmap. by rewrite fmap_take. Qed.

Lemma zip_diag {A} (l : list A) : zip l l = map (λ x, (x, x)) l.
Proof. induction l as [|x l IH]; simpl; [done | by rewrite IH]. Qed.

Lemma arange_length z n : length (Np.arange z n) = n.
Proof. revert z. induction n as [|n IH]; intros z; simpl; [done | by rewrite IH]. Qed.

Lemma arange_lookup n : ∀ z i,
  i < n → Np.arange z n !! i = Some (Np.of_int (z + Z.of_nat i)).
Proof.
  induction n as [|n IH]; intros z i Hi; [lia|].
  destruct i as [|i]; simpl.
  - by rewrite Z.add_0_r.
  - rewrite IH by lia. do 2 f_equal. lia.
Qed.

(** [np.linspace] returns [num] samples whenever [num] is not negative. *)
Lemma linspace_length stop num t :
  Np.linspace stop num = Ok t → length t = Z.to_nat num.
Proof.
  unfold Np.linspace. case_match; [done|]. intros [= <-].
  unfold Np.set_last.
  repeat case_match; by rewrite ?length_insert, ?length_map, arange_length.
Qed.

Lemma linspace_ok stop num :
  (0 ≤ num)%Z → ∃ t, Np.linspace stop num = Ok t.
Proof.
  intros Hnum. unfold Np.linspace.
  destruct (Z.ltb_spec num 0); [lia | eauto].
Qed.

Lemma linspace_raise stop num :
  (num < 0)%Z → Np.linspace stop num = Raise ValueError.
Proof.
  intros Hnum. unfold Np.linspace.
  destruct (Z.ltb_spec num 0); [done | lia].
Qed.

(** With at least two samples, the last one is [stop] itself. *)
Lemma linspace_last stop num t :
  (1 < num)%Z → Np.linspace stop num = Ok t →
  t !! (Z.to_nat num - 1) = Some stop.
Proof.
  intros Hnum Ht. pose proof (linspace_length _ _ _ Ht) as Hlen.
  revert Ht Hlen. unfold Np.linspace.
  destruct (Z.ltb_spec num 0); [lia|].
  destruct (Z.ltb_spec 1 num); [|lia].
  intros [= <-]. unfold Np.set_last. rewrite length_insert.
  intros Hlen. rewrite Hlen.
  replace (Nat.pred (Z.to_nat num)) with (Z.to_nat num - 1) by lia.
  apply list_lookup_insert_eq. lia.
Qed.

(** Before the last one, sample [i] is [i * step + 0] with
    [step = (stop - 0) / (num - 1)] (when that step is not zero). *)
Lemma linspace_lookup stop num t i :
  (1 < num)%Z → Np.linspace stop num = Ok t →
  ((stop - 0) / Np.of_int (num - 1) =? 0)%float = false →
  i < Z.to_nat num - 1 →
  t !! i = Some (Np.of_int (Z.of_nat i)
                 * ((stop - 0) / Np.of_int (num - 1)) + 0)%float.
Proof.
  intros Hnum Ht Hstep Hi. revert Ht. unfold Np.linspace.
  destruct (Z.ltb_spec num 0); [lia|].
  destruct (Z.ltb_spec 1 num); [|lia].
  destruct (Z.ltb_spec 0 (num - 1)); [|lia].
  rewrite Hstep. intros [= <-]. unfold Np.set_last.
  rewrite !length_map, arange_length.
  rewrite list_lookup_insert_ne by lia.
  rewrite !lookup_map, arange_lookup by lia. simpl.
  by rewrite Z.add_0_l.
Qed.

(** For a shift [0 <= d < n], rolling by [d] and zeroing the first [d] rows
    is the copy shifted by [d] with a zero prefix: nothing of the tail comes
    back at the start. *)
Lemma roll_fill_prefix {A} (v : A) (a : list A) (d : nat) :
  d < length a →
  Np.fill_prefix v (Z.of_nat d) (Np.roll a (Z.of_nat d))
  = replicate d v ++ take (length a - d) a.
Proof.
  intros Hd. unfold Np.roll, Np.fill_prefix, Np.slice_stop.
  destruct (Z.eqb_spec (Z.of_nat (length a)) 0); [lia|].
  rewrite Z.mod_small by lia.
  replace (Z.to_nat (Z.of_nat (length a) - Z.of_nat d))
    with (length a - d) by lia.
  destruct (Z.ltb_spec (Z.of_nat d) 0); [lia|].
  rewrite Nat2Z.id, length_app, length_drop, length_take.
  replace (d `min` (length a - (length a - d) + (length a - d) `min` length a))
    with d by lia.
  f_equal. rewrite drop_app_length'; [done|].
  rewrite length_drop. lia.
Qed.

End Arrays.

(** ** The low-pass loop is the recurrence *)

Section LowPass.

#[local] Open Scope float_scope.

(** The loop invariant: once the rows up to [length d] are written, running the
    loop over the remaining indices writes the recurrence started from the
    last written row. *)
Lemma low_pass_loop alpha : ∀ (post d : list float) (yp : float) (win : list float),
  length win = S (length d) →
  foldl (low_pass_step alpha (win ++ post))
    ((d ++ [yp]) ++ replicate (length post) 0)
    (seq (S (length d)) (length post))
  = (d ++ [yp]) ++ spec_iir alpha yp post.
Proof.
  induction post as [|x post IH]; intros d yp win Hwin; [done|].
  cbn [length seq foldl replicate spec_iir].
  unfold low_pass_step at 2.
  replace ((win ++ x :: post) !! S (length d)) with (Some x); last first.
  { symmetry. rewrite <- Hwin. apply list_lookup_middle. done. }
  replace (((d ++ [yp]) ++ 0 :: replicate (length post) 0) !! Nat.pred (S (length d)))
    with (Some yp); last first.
  { symmetry. simpl. rewrite <- (assoc_L (++)). simpl.
    by apply list_lookup_middle. }
  cbn [default id].
  replace (<[S (length d) := alpha * x + (1 - alpha) * yp]>
             ((d ++ [yp]) ++ 0 :: replicate (length post) 0))
    with (((d ++ [yp]) ++ [alpha * x + (1 - alpha) * yp])
            ++ replicate (length post) 0); last first.
  { symmetry. rewrite insert_app_r_alt by (rewrite length_app; simpl; lia).
    rewrite length_app. simpl.
    replace (S (length d) - (length d + 1))%nat with 0%nat by lia.
    simpl. by rewrite <- !(assoc_L (++)). }
  specialize (IH (d ++ [yp]) (alpha * x + (1 - alpha) * yp) (win ++ [x])).
  rewrite <- (assoc_L (++) win) in IH. simpl in IH.
  rewrite !length_app in IH. simpl in IH.
  replace (length d + 1)%nat with (S (length d)) in IH by lia.
  rewrite IH by lia.
  by rewrite <- (assoc_L (++) (d ++ [yp])).
Qed.

(** [filtered[0] = wave[0]] raises on an empty array; on any other the loop
    computes the single-pole recurrence with [alpha = 0.1]. *)
Lemma low_pass_filter_spec (wave : list float) :
  low_pass_filter wave
  = match wave with
    | [] => Raise IndexError
    | _ :: _ => Ok (spec_low_pass 0.1 wave)
    end.
Proof.
  destruct wave as [|w0 rest]; [done|].
  unfold low_pass_filter. cbn [lookup list_lookup length replicate Nat.pred].
  f_equal. cbn [insert list_insert].
  exact (low_pass_loop 0.1 rest [] w0 [w0] eq_refl).
Qed.

Lemma spec_iir_length alpha x : ∀ yp, length (spec_iir alpha yp x) = length x.
Proof. induction x as [|v x IH]; intros yp; simpl; [done | by rewrite IH]. Qed.

Lemma spec_low_pass_length alpha x : length (spec_low_pass alpha x) = length x.
Proof. destruct x; simpl; [done | by rewrite spec_iir_length]. Qed.

End LowPass.

(** ** What [generate_sample] computes *)

Section Run.

Variable libm : Libm.

Lemma base_wave_length self t : length (base_wave libm self t) = length t.
Proof. unfold base_wave. repeat case_match; apply length_map. Qed.

Lemma spec_mono_pipeline_length self x :
  length (spec_mono_pipeline libm self x) = length x.
Proof.
  unfold spec_mono_pipeline, spec_distortion, spec_bit_crush.
  rewrite length_map.
  repeat case_match;
    by rewrite ?spec_low_pass_length, ?length_map.
Qed.

Lemma to_int16_length wave : length (to_int16 wave) = length wave.
Proof. unfold to_int16. by rewrite !length_map. Qed.

Lemma to_int16_take n wave : to_int16 (take n wave) = take n (to_int16 wave).
Proof. unfold to_int16. by rewrite !take_map. Qed.

Lemma to_int16_range wave : Forall is_int16 (to_int16 wave).
Proof.
  unfold to_int16. rewrite !map_fmap. apply Forall_fmap, Forall_true.
  intros x. apply astype_int16_range.
Qed.

(** The run of [generate_sample] once the samples [t] are there and the
    low-pass filter, if enabled, has a first sample to read. *)
Lemma generate_sample_run len self n t :
  sample_count len = Ok n →
  Np.linspace len n = Ok t →
  (low_pass (effects self) = true → t ≠ []) →
  generate_sample libm len self = rendered libm self t.
Proof.
  unfold sample_count, rendered, mono_16bit, delay_samples_of.
  intros Hn Ht Hlp.
  unfold generate_sample, mbind, SynthM_bind, lift, get_self, update_self,
    mret, SynthM_ret.
  rewrite Hn, Ht. cbv zeta. rewrite <- to_int16_take.
  unfold spec_mono_pipeline, spec_distortion, spec_bit_crush.
  destruct (low_pass (effects self)) eqn:Elp.
  - rewrite low_pass_filter_spec.
    set (pre := if bit_crush (effects self) then _ else _).
    assert (Hpre : length pre = length t).
    { subst pre. repeat case_match;
        by rewrite ?length_map, base_wave_length. }
    destruct pre as [|p0 pre'] eqn:Epre.
    { destruct t; [by destruct Hlp | done]. }
    cbv beta iota.
    destruct (delay (effects self));
      [destruct (Np.py_int (_ * delay_time self))|]; reflexivity.
  - cbv beta iota.
    destruct (delay (effects self));
      [destruct (Np.py_int (_ * delay_time self))|]; reflexivity.
Qed.

(** The three ways the run stops before any sample is written. *)
Lemma generate_sample_raise_count len self e :
  sample_count len = Raise e →
  generate_sample libm len self = (Raise e, self).
Proof.
  unfold sample_count. intros Hn.
  unfold generate_sample, mbind, SynthM_bind, lift. by rewrite Hn.
Qed.

Lemma generate_sample_raise_linspace len self n :
  sample_count len = Ok n → (n < 0)%Z →
  generate_sample libm len self = (Raise ValueError, self).
Proof.
  unfold sample_count. intros Hn Hneg.
  unfold generate_sample, mbind, SynthM_bind, lift.
  by rewrite Hn, linspace_raise.
Qed.

Lemma generate_sample_raise_low_pass len self :
  sample_count len = Ok 0%Z → low_pass (effects self) = true →
  generate_sample libm len self = (Raise IndexError, self).
Proof.
  unfold sample_count. intros Hn Hlp.
  unfold generate_sample, mbind, SynthM_bind, lift, get_self.
  rewrite Hn. cbn [Np.linspace Z.ltb Z.compare Z.to_nat Np.arange]. 
  rewrite Hlp.
  replace (base_wave libm self _) with (@nil float); last first.
  { symmetry. apply nil_length_inv. rewrite base_wave_length. 
    vm_compute. reflexivity. }
  by destruct (bit_crush (effects self)), (distortion (effects self)).
Qed.

End Run.

(** ** The delay stage *)

Section Delay.

#[local] Open Scope Z_scope.

Lemma roll_length {A} (a : list A) s : length (Np.roll a s) = length a.
Proof.
  unfold Np.roll. case_match; [done|].
  rewrite length_app, length_drop, length_take. lia.
Qed.

Lemma fill_prefix_length {A} (v : A) s (a : list A) :
  length (Np.fill_prefix v s a) = length a.
Proof.
  unfold Np.fill_prefix, Np.slice_stop.
  rewrite length_app, length_replicate, length_drop.
  case_match; lia.
Qed.

Lemma halved_length a : length (halved a) = length a.
Proof. unfold halved. apply length_map. Qed.

Lemma mix_delay_length a d : length (mix_delay a d) = length a.
Proof.
  unfold mix_delay, frames_add. case_match; [|done].
  rewrite length_zip_with, halved_length, fill_prefix_length, roll_length.
  apply Nat.min_id.
Qed.

(** Whatever the shift, the mixed array holds [int16] samples. *)
Lemma mix_delay_range a d :
  Forall frame_int16 a → Forall frame_int16 (mix_delay a d).
Proof.
  intros Ha. unfold mix_delay. case_match; [|done].
  unfold frames_add. apply Forall_lookup. intros i z Hz.
  apply lookup_zip_with_Some in Hz as (x & y & -> & _ & _).
  split; apply int16_add_range.
Qed.

(** The delayed copy for a shift [0 <= d < n], halved. *)
Lemma mix_delay_shift (a : list Frame) (d : nat) :
  (d < length a)%nat →
  mix_delay a (Z.of_nat d)
  = frames_add a
      (halved (replicate d (0, 0) ++ take (length a - d) a)).
Proof.
  intros Hd. unfold mix_delay.
  destruct (Z.ltb_spec (Z.of_nat d) (Z.of_nat (length a))); [|lia].
  by rewrite roll_fill_prefix.
Qed.

Lemma mix_delay_head (a : list Frame) (d i : nat) :
  (d < length a)%nat → Forall frame_int16 a → (i < d)%nat →
  mix_delay a (Z.of_nat d) !! i = a !! i.
Proof.
  intros Hd Ha Hi. rewrite mix_delay_shift by done.
  unfold frames_add, halved. rewrite lookup_zip_with, lookup_map.
  rewrite lookup_app_l by (rewrite length_replicate; lia).
  rewrite lookup_replicate_2 by lia.
  destruct (a !! i) as [[l r]|] eqn:Hx; [|done]. simpl.
  rewrite Forall_lookup in Ha. destruct (Ha _ _ Hx) as [Hl Hr].
  rewrite int16_half_0. by rewrite !int16_add_0_r.
Qed.

Lemma mix_delay_tail (a : list Frame) (d i : nat) (x y : Frame) :
  (d < length a)%nat → (d ≤ i)%nat →
  a !! i = Some x → a !! (i - d)%nat = Some y →
  mix_delay a (Z.of_nat d) !! i
  = Some (Np.int16_add x.1 (Np.int16_half y.1),
          Np.int16_add x.2 (Np.int16_half y.2)).
Proof.
  intros Hd Hi Hx Hy. rewrite mix_delay_shift by done.
  unfold frames_add, halved. rewrite lookup_zip_with, lookup_map, Hx.
  rewrite lookup_app_r by (rewrite length_replicate; lia).
  rewrite length_replicate.
  apply lookup_lt_Some in Hx as Hlt.
  rewrite lookup_take_lt by lia. rewrite Hy. by destruct y.
Qed.

End Delay.

(** ** Every run of [generate_sample] *)

Section Outcome.

Variable libm : Libm.

(** A call either stops at [int(...)], at [np.linspace], at the first read of
    the low-pass filter, or runs over the [n] time samples. *)
Lemma generate_sample_cases len self :
  (∃ e, sample_count len = Raise e
        ∧ generate_sample libm len self = (Raise e, self))
  ∨ (∃ n, sample_count len = Ok n ∧ (n < 0)%Z
          ∧ generate_sample libm len self = (Raise ValueError, self))
  ∨ (sample_count len = Ok 0%Z ∧ low_pass (effects self) = true
     ∧ generate_sample libm len self = (Raise IndexError, self))
  ∨ (∃ n t, sample_count len = Ok n ∧ (0 ≤ n)%Z
            ∧ Np.linspace len n = Ok t ∧ length t = Z.to_nat n
            ∧ (low_pass (effects self) = true → (1 ≤ n)%Z)
            ∧ generate_sample libm len self = rendered libm self t).
Proof.
  destruct (sample_count len) as [n|e] eqn:Hn.
  2:{ left. exists e. eauto using generate_sample_raise_count. }
  right. destruct (Z.ltb_spec n 0) as [Hneg|Hpos].
  { left. exists n. eauto using generate_sample_raise_linspace. }
  right. destruct (low_pass (effects self)) eqn:Hlp.
  - destruct (decide (n = 0%Z)) as [->|Hn0].
    { left. eauto using generate_sample_raise_low_pass. }
    right. destruct (linspace_ok len n Hpos) as [t Ht].
    pose proof (linspace_length _ _ _ Ht) as Hlen.
    exists n, t. repeat split; try done; try lia.
    apply (generate_sample_run libm len self n t); try done.
    intros _ ->. simpl in Hlen. lia.
  - right. destruct (linspace_ok len n Hpos) as [t Ht].
    pose proof (linspace_length _ _ _ Ht) as Hlen.
    exists n, t. repeat split; try done.
    apply (generate_sample_run libm len self n t); [done | done | congruence].
Qed.

Lemma mono_16bit_length self t : length (mono_16bit libm self t) = length t.
Proof.
  unfold mono_16bit.
  by rewrite to_int16_length, spec_mono_pipeline_length, base_wave_length.
Qed.

Lemma column_stack_diag_length w : length (column_stack w w) = length w.
Proof. unfold column_stack. rewrite zip_diag. apply length_map. Qed.

Lemma column_stack_diag_lookup w i :
  column_stack w w !! i = (λ x, (x, x)) <$> (w !! i).
Proof. unfold column_stack. rewrite zip_diag. apply lookup_map. Qed.

Lemma column_stack_diag_fst w : (column_stack w w).*1 = w.
Proof.
  unfold column_stack.
  induction w as [|x w IH]; [done|].
  cbn [zip_with fmap list_fmap fst]. by f_equal.
Qed.

Lemma mono_16bit_range self t :
  Forall frame_int16 (column_stack (mono_16bit libm self t)
                        (mono_16bit libm self t)).
Proof.
  apply Forall_lookup. intros i [l r]. rewrite column_stack_diag_lookup.
  destruct (mono_16bit libm self t !! i) as [x|] eqn:Hx; [|done].
  intros [= <- <-].
  pose proof (to_int16_range
                (spec_mono_pipeline libm self (base_wave libm self t))) as Hr.
  rewrite Forall_lookup in Hr. split; by apply (Hr i).
Qed.

(** The delay pedal is read by the delay stage alone. *)
Lemma mono_16bit_without_delay self t :
  mono_16bit libm (without_delay self) t = mono_16bit libm self t.
Proof. reflexivity. Qed.

Lemma sample_dry len self dry :
  (generate_sample libm len (without_delay self)).1 = Ok dry →
  ∃ n t, sample_count len = Ok n ∧ (0 ≤ n)%Z
         ∧ Np.linspace len n = Ok t ∧ length t = Z.to_nat n
         ∧ (low_pass (effects self) = true → (1 ≤ n)%Z)
         ∧ dry = column_stack (mono_16bit libm self t) (mono_16bit libm self t)
         ∧ generate_sample libm len self = rendered libm self t.
Proof.
  intros Hdry.
  destruct (generate_sample_cases len (without_delay self))
    as [(e & _ & Hg)|[(n & _ & _ & Hg)|[(_ & _ & Hg)|
         (n & t & Hn & Hpos & Ht & Hlen & Hlp & Hg)]]];
    rewrite Hg in Hdry; try discriminate.
  exists n, t. repeat split; try done.
  - unfold rendered in Hdry. simpl in Hdry. by injection Hdry as <-.
  - apply (generate_sample_run libm len self n t); try done.
    intros Hl ->. specialize (Hlp Hl). simpl in Hlen. lia.
Qed.

End Outcome.

(** ** Runs that do not reach the maths library *)

(** The sawtooth and triangle waves without distortion call neither [np.sin]
    nor [np.tanh]: their runs are the same under every maths library. *)
Lemma generate_sample_without_libm (libm1 libm2 : Libm) (len : float)
    (self : Synth) :
  waveform self = "sawtooth" ∨ waveform self = "triangle" →
  distortion (effects self) = false →
  generate_sample libm1 len self = generate_sample libm2 len self.
Proof.
  intros Hw Hd.
  unfold generate_sample, mbind, SynthM_bind, lift, get_self, base_wave.
  destruct (Np.py_int _) as [n|e]; [|done].
  destruct (Np.linspace len n) as [t|e]; [|done].
  rewrite Hd. by destruct Hw as [-> | ->].
Qed.

(** On an empty array no function is called at all: a run with no sample is
    the same under every maths library. *)
Lemma generate_sample_empty_without_libm (libm1 libm2 : Libm) (len : float)
    (self : Synth) :
  sample_count len = Ok 0%Z →
  generate_sample libm1 len self = generate_sample libm2 len self.
Proof.
  unfold sample_count. intros Hn.
  unfold generate_sample, mbind, SynthM_bind, lift, get_self.
  rewrite Hn. cbn [Np.linspace Z.ltb Z.compare Z.to_nat Np.arange].
  replace (base_wave libm1 self _) with (@nil float); last first.
  { symmetry. apply nil_length_inv. rewrite base_wave_length.
    vm_compute. reflexivity. }
  replace (base_wave libm2 self _) with (@nil float); last first.
  { symmetry. apply nil_length_inv. rewrite base_wave_length.
    vm_compute. reflexivity. }
  by destruct (distortion (effects self)).
Qed.

(** ** The recorder on the program's clock *)

(** A session started when [time.time()] reads 10.0, with notes at 10.0 and
    10.5: the recorded times are 0.0 and 0.5. *)
Example float_clock_session :
  map time
    (recorded_notes
       (add_note 10.5%float "E" 329.63 "sine"
          (add_note 10%float "C" 261.63 "sine"
             (start_recording 10%float Recorder_init))))
  = [0%float; 0.5%float].
Proof. vm_compute. reflexivity. Qed.

(** * The claims *)

(** ** C1: the size and the range of the returned buffer *)




(** ** C2 and C3: the delay stage *)

Section DelayRun.

Variable libm : Libm.

(** With the delay enabled, the returned array is the delay stage applied to
    the array the same call returns with the delay off. *)
Lemma generate_sample_delay len self dry d :
  delay (effects self) = true →
  (generate_sample libm len (without_delay self)).1 = Ok dry →
  delay_samples_of self = Ok d →
  (generate_sample libm len self).1 = Ok (mix_delay dry d)
  ∧ Forall frame_int16 dry.
Proof.
  intros Hdelay Hdry Hd.
  destruct (sample_dry libm len self dry Hdry)
    as (n & t & _ & _ & _ & _ & _ & -> & Hg).
  rewrite Hg. unfold rendered. rewrite Hdelay, Hd.
  split; [done | apply mono_16bit_range].
Qed.

End DelayRun.

(** C2, as stated, fails.  Sawtooth wave at 11025 Hz, volume 1, delay of
    0.0001 s (4 samples), duration 0.0005 s: without the delay frame 6 holds
    -28671 and frame 2 holds -30719; the sum -28671 + (-15359) = -44030 is
    below -32768, and with the delay frame 6 holds 21506, which is -44030 + 65536:
    the sum wrapped, it was not clipped to -32768. *)
Lemma C2_mix_wraps_counterexample :
  let self :=
    set_effects {| distortion := false; delay := true;
                   low_pass := false; bit_crush := true |}
      (set_delay_time 1e-4
         (set_volume 1
            (set_frequency 11025 (set_waveform "sawtooth" Synth_init)))) in
  let dry := (generate_sample ExampleLibm.libm 0.0005 (without_delay self)).1 in
  let out := (generate_sample ExampleLibm.libm 0.0005 self).1 in
  delay_samples_of self = Ok 4%Z
  ∧ frame_at dry 2 = Some (-30719, -30719)%Z
  ∧ frame_at dry 6 = Some (-28671, -28671)%Z
  ∧ (-28671 + -30719 ÷ 2 = -44030)%Z
  ∧ frame_at out 6 = Some (21506, 21506)%Z
  ∧ (21506 = -44030 + 65536)%Z.
Proof. vm_compute. repeat split; reflexivity. Qed.

(** C2, amended.  With the delay enabled and the array longer than the delay
    [d], every sample from row [d] on is the 16-bit wrap-around of
    [original[i] + trunc(original[i - d] / 2)]: an overflowing sum is reduced
    modulo [2^16], not clipped.  The sum is exact, with nothing to clip, when
    both samples are within 21845 of zero. *)
Theorem C2_mix_modulo (libm : Libm) (self : Synth) (len : float)
    (dry : Sound) (d i : nat) (x y : Frame) :
  delay (effects self) = true →
  (generate_sample libm len (without_delay self)).1 = Ok dry →
  delay_samples_of self = Ok (Z.of_nat d) →
  d < length dry → d ≤ i →
  dry !! i = Some x → dry !! (i - d) = Some y →
  ∃ z, frame_at (generate_sample libm len self).1 i = Some z
       ∧ z.1 = Np.wrap16 (x.1 + y.1 ÷ 2)
       ∧ z.2 = Np.wrap16 (x.2 + y.2 ÷ 2)
       ∧ (∃ k, z.1 = x.1 + y.1 ÷ 2 + 65536 * k)%Z
       ∧ (∃ k, z.2 = x.2 + y.2 ÷ 2 + 65536 * k)%Z
       ∧ ((Z.abs x.1 ≤ 21845 ∧ Z.abs y.1 ≤ 21845)%Z → z.1 = (x.1 + y.1 ÷ 2)%Z)
       ∧ ((Z.abs x.2 ≤ 21845 ∧ Z.abs y.2 ≤ 21845)%Z → z.2 = (x.2 + y.2 ÷ 2)%Z).
Proof.
  intros Hdelay Hdry Hd Hlt Hle Hx Hy.
  destruct (generate_sample_delay libm len self dry _ Hdelay Hdry Hd)
    as [Hout Hrange].
  rewrite Hout. cbn [frame_at].
  rewrite (mix_delay_tail dry d i x y Hlt Hle Hx Hy).
  rewrite Forall_lookup in Hrange.
  destruct (Hrange _ _ Hy) as [Hy1 Hy2].
  rewrite !int16_half_quot by done.
  eexists. split; [reflexivity|]. cbn [fst snd]. unfold Np.int16_add.
  repeat split; try apply wrap16_congruent.
  - intros [Hxb Hyb]. apply wrap16_id. unfold is_int16.
    pose proof (Z.quot_le_mono y.1 21845 2) as Hup.
    pose proof (Z.quot_le_mono (-21845) y.1 2) as Hlo.
    change (21845 ÷ 2)%Z with 10922%Z in Hup.
    change (-21845 ÷ 2)%Z with (-10922)%Z in Hlo. lia.
  - intros [Hxb Hyb]. apply wrap16_id. unfold is_int16.
    pose proof (Z.quot_le_mono y.2 21845 2) as Hup.
    pose proof (Z.quot_le_mono (-21845) y.2 2) as Hlo.
    change (21845 ÷ 2)%Z with 10922%Z in Hup.
    change (-21845 ÷ 2)%Z with (-10922)%Z in Hlo. lia.
Qed.

(** C2's amended statement applies to frame 6 of a 0.0005 s sawtooth buffer
    with a delay of 4 samples. *)
Lemma C2_mix_modulo_witness :
  let self :=
    set_effects {| distortion := false; delay := true;
                   low_pass := false; bit_crush := true |}
      (set_delay_time 1e-4 (set_waveform "sawtooth" Synth_init)) in
  let x : Frame := (2047, 2047)%Z in
  let y : Frame := (1023, 1023)%Z in
  ∃ z, frame_at (generate_sample ExampleLibm.libm 0.0005 self).1 6 = Some z
       ∧ z.1 = Np.wrap16 (x.1 + y.1 ÷ 2)
       ∧ z.2 = Np.wrap16 (x.2 + y.2 ÷ 2)
       ∧ (∃ k, z.1 = x.1 + y.1 ÷ 2 + 65536 * k)%Z
       ∧ (∃ k, z.2 = x.2 + y.2 ÷ 2 + 65536 * k)%Z
       ∧ ((Z.abs x.1 ≤ 21845 ∧ Z.abs y.1 ≤ 21845)%Z → z.1 = (x.1 + y.1 ÷ 2)%Z)
       ∧ ((Z.abs x.2 ≤ 21845 ∧ Z.abs y.2 ≤ 21845)%Z → z.2 = (x.2 + y.2 ÷ 2)%Z).
Proof.
  intros self x y.
  eapply (C2_mix_modulo ExampleLibm.libm self 0.0005 _ 4 6 x y).
  - reflexivity.
  - vm_compute. reflexivity.
  - vm_compute. reflexivity.
  - simpl. lia.
  - lia.
  - reflexivity.
  - reflexivity.
Defined.




(** ** C4: what makes [generate_sample] fail *)



(** ** C5: the time samples *)

(** C5 at [generate_sample(1.0)] with the sawtooth wave at 440 Hz and the
    settings of [Synth.__init__].  The 44100 time samples are those of
    [np.linspace(0, 1.0, 44100)], whose step is [1/44099] and whose last sample
    is [1.0]: sample 43047 is later than [43047 / 44100], the wave has already
    jumped there, and the buffer holds -16383 where the claim's time sample
    gives 16383. *)
Theorem C5_time_samples_at_one_second (libm : Libm) :
  let self := set_waveform "sawtooth" Synth_init in
  ∃ t buf tc,
    sample_count 1 = Ok 44100%Z
    ∧ Np.linspace 1 44100 = Ok t
    ∧ (generate_sample libm 1 self).1 = Ok buf
    ∧ length buf = Z.to_nat 44100
    ∧ t !! Z.to_nat 44099 = Some 1%float
    ∧ (spec_time 44099 <? 1)%float = true
    ∧ t !! Z.to_nat 43047 = Some tc
    ∧ tc = (Np.of_int 43047 * ((1 - 0) / Np.of_int 44099) + 0)%float
    ∧ (spec_time 43047 <? tc)%float = true
    ∧ buf !! Z.to_nat 43047 = Some (-16383, -16383)%Z
    ∧ mono_16bit libm self [spec_time 43047] = [16383%Z].
Proof.
  intros self.
  assert (Hn : sample_count 1 = Ok 44100%Z) by (vm_compute; reflexivity).
  destruct (linspace_ok 1 44100) as [t Ht]; [lia|].
  pose proof (linspace_length _ _ _ Ht) as Hlen.
  assert (Hlast : t !! Z.to_nat 44099 = Some 1%float).
  { replace (Z.to_nat 44099) with (Z.to_nat 44100 - 1) by lia.
    apply (linspace_last 1 44100 t); [lia | done]. }
  assert (Htc : t !! Z.to_nat 43047
                = Some (Np.of_int 43047 * ((1 - 0) / Np.of_int 44099) + 0)%float).
  { rewrite (linspace_lookup 1 44100 t (Z.to_nat 43047)); [|lia|done| |lia].
    - by rewrite Z2Nat.id by lia.
    - vm_compute. reflexivity. }
  exists t, (column_stack (mono_16bit libm self t) (mono_16bit libm self t)),
    (Np.of_int 43047 * ((1 - 0) / Np.of_int 44099) + 0)%float.
  split; [done|]. split; [done|]. split.
  { rewrite (generate_sample_run libm 1 self 44100 t Hn Ht); [done|].
    discriminate. }
  split. { by rewrite column_stack_diag_length, mono_16bit_length. }
  split; [done|]. split; [vm_compute; reflexivity|].
  split; [done|]. split; [done|]. split; [vm_compute; reflexivity|].
  split; [|vm_compute; reflexivity].
  rewrite column_stack_diag_lookup.
  assert (Hmono : mono_16bit libm self t
            = map (λ ti, Np.astype_int16
                           ((Np.round (sawtooth_at 440 ti * 16) / 16
                             * 0.5 * 32767)%float)) t).
  { unfold mono_16bit, to_int16.
    change (spec_mono_pipeline libm self (base_wave libm self t))
      with (map (λ v, (v * 0.5)%float)
              (map (λ v, (Np.round (v * py_pow2 4) / py_pow2 4)%float)
                 (map (sawtooth_at 440) t))).
    rewrite !map_map. apply map_ext. intros ti.
    replace (py_pow2 4) with 16%float by (vm_compute; reflexivity).
    reflexivity. }
  rewrite Hmono, lookup_map, Htc. cbn [fmap option_fmap option_map].
  do 2 f_equal; vm_compute; reflexivity.
Qed.

(** ** C6: the preview slice *)

(** C6.  [self.wave_points] after a call is the first [min(300, N)] samples
    of the mono 16-bit sequence [wave_16bit], the one that is doubled into the
    stereo array: the same conversion, nothing else applied, and the delay
    stage, which works on the stereo array, has no part in it.  [dry] is the
    array the call returns with the delay off. *)
Theorem C6_preview_is_mono_prefix (libm : Libm) (self : Synth) (len : float)
    (dry : Sound) :
  (generate_sample libm len (without_delay self)).1 = Ok dry →
  ∃ wave_16bit,
    dry = column_stack wave_16bit wave_16bit
    ∧ wave_16bit = dry.*1
    ∧ wave_points (generate_sample libm len self).2
      = take (Nat.min 300 (length wave_16bit)) wave_16bit
    ∧ wave_points (generate_sample libm len (without_delay self)).2
      = wave_points (generate_sample libm len self).2.
Proof.
  intros Hdry.
  assert (Hdry' := Hdry).
  destruct (sample_dry libm len self dry Hdry)
    as (n & t & Hn & Hpos & Ht & Hlen & Hlp & -> & Hg).
  exists (mono_16bit libm self t).
  split; [done|]. split; [by rewrite column_stack_diag_fst|].
  assert (Hwp : wave_points (generate_sample libm len self).2
                = take 300 (mono_16bit libm self t)).
  { rewrite Hg. unfold rendered.
    destruct (delay (effects self)); [|done].
    by destruct (delay_samples_of self). }
  split.
  - rewrite Hwp. rewrite <- take_take.
    by rewrite (take_ge _ (length _)).
  - rewrite Hwp.
    rewrite (generate_sample_run libm len (without_delay self) n t Hn Ht).
    + reflexivity.
    + intros Hl ->. specialize (Hlp Hl). simpl in Hlen. lia.
Qed.

(** C6 applies to the 0.0005 s sawtooth buffer with a delay of 4 samples. *)
Lemma C6_preview_is_mono_prefix_witness :
  let self :=
    set_effects {| distortion := false; delay := true;
                   low_pass := false; bit_crush := true |}
      (set_delay_time 1e-4 (set_waveform "sawtooth" Synth_init)) in
  let dry :=
    match (generate_sample ExampleLibm.libm 0.0005 (without_delay self)).1 with
    | Ok buf => buf
    | Raise _ => []
    end in
  ∃ wave_16bit,
    dry = column_stack wave_16bit wave_16bit
    ∧ wave_16bit = dry.*1
    ∧ wave_points (generate_sample ExampleLibm.libm 0.0005 self).2
      = take (Nat.min 300 (length wave_16bit)) wave_16bit
    ∧ wave_points (generate_sample ExampleLibm.libm 0.0005 (without_delay self)).2
      = wave_points (generate_sample ExampleLibm.libm 0.0005 self).2.
Proof.
  intros self dry.
  apply (C6_preview_is_mono_prefix ExampleLibm.libm self 0.0005 dry).
  vm_compute. reflexivity.
Defined.

(** ** C7: the order of the effects *)



(** ** C10: the generator reads its settings and nothing else *)

(** C10.  Two calls with the same duration on synthesizers that agree on the
    frequency, the waveform, the volume, the effect toggles and the effect
    parameters return the same buffer (or raise the same exception) and store
    the same preview, whatever the rest of the two states ([playing], [sound],
    [current_note], the previous [wave_points]). *)
Theorem C10_same_settings_same_output (libm : Libm) (s1 s2 : Synth)
    (len : float) :
  frequency s1 = frequency s2 →
  waveform s1 = waveform s2 →
  volume s1 = volume s2 →
  effects s1 = effects s2 →
  delay_time s1 = delay_time s2 →
  distortion_amount s1 = distortion_amount s2 →
  bit_crush_factor s1 = bit_crush_factor s2 →
  (generate_sample libm len s1).1 = (generate_sample libm len s2).1
  ∧ (is_ok (generate_sample libm len s1).1 = true →
     wave_points (generate_sample libm len s1).2
     = wave_points (generate_sample libm len s2).2).
Proof.
  intros Hf Hw Hv He Hd Hda Hb.
  assert (Hmono : ∀ t, mono_16bit libm s1 t = mono_16bit libm s2 t).
  { intros t. unfold mono_16bit, spec_mono_pipeline, base_wave.
    by rewrite Hf, Hw, Hv, He, Hda, Hb. }
  assert (Hds : delay_samples_of s1 = delay_samples_of s2).
  { unfold delay_samples_of. by rewrite Hd. }
  destruct (generate_sample_cases libm len s1)
    as [(e & He1 & Hg1)|[(n & Hn1 & Hneg & Hg1)|[(Hn1 & Hl & Hg1)|
         (n & t & Hn1 & Hpos & Ht & Hlen & Hlp & Hg1)]]]; rewrite Hg1.
  - rewrite (generate_sample_raise_count libm len s2 e He1).
    split; [done | discriminate].
  - rewrite (generate_sample_raise_linspace libm len s2 n Hn1 Hneg).
    split; [done | discriminate].
  - rewrite He in Hl.
    rewrite (generate_sample_raise_low_pass libm len s2 Hn1 Hl).
    split; [done | discriminate].
  - rewrite (generate_sample_run libm len s2 n t Hn1 Ht).
    + unfold rendered. rewrite <- He, <- Hds, Hmono.
      destruct (delay (effects s1)); [|done].
      by destruct (delay_samples_of s1).
    + rewrite <- He. intros Hl ->. specialize (Hlp Hl). simpl in Hlen. lia.
Qed.

(** C10 applies to a fresh synthesizer and to one that has already played a
    note: both render the same 0.0005 s sawtooth buffer. *)
Lemma C10_same_settings_same_output_witness :
  let s1 := set_waveform "sawtooth" Synth_init in
  let s2 :=
    set_playing true
      (set_current_note (Some "A")
         (set_sound (Some [(1, 1)]%Z)
            (set_wave_points [7%Z] (set_waveform "sawtooth" Synth_init)))) in
  (generate_sample ExampleLibm.libm 0.0005 s1).1
  = (generate_sample ExampleLibm.libm 0.0005 s2).1
  ∧ (is_ok (generate_sample ExampleLibm.libm 0.0005 s1).1 = true →
     wave_points (generate_sample ExampleLibm.libm 0.0005 s1).2
     = wave_points (generate_sample ExampleLibm.libm 0.0005 s2).2).
Proof.
  intros s1 s2.
  apply (C10_same_settings_same_output ExampleLibm.libm s1 s2 0.0005);
    reflexivity.
Defined.

(** ** The exact clock keeps the order of readings *)

Module ExactClockLaws.

Import ExactClock.

#[local] Open Scope Q_scope.

Lemma nearest_bounds q : (Qfloor q ≤ nearest q ≤ Qfloor q + 1)%Z.
Proof. unfold nearest. repeat case_match; lia. Qed.

Lemma nearest_mono a b : a <= b → (nearest a ≤ nearest b)%Z.
Proof.
  intros Hab.
  pose proof (Qfloor_resp_le _ _ Hab) as Hk.
  destruct (decide (Qfloor a = Qfloor b)) as [Heq|Hne].
  2:{ pose proof (nearest_bounds a). pose proof (nearest_bounds b). lia. }
  assert (Hf : a - inject_Z (Qfloor a) <= b - inject_Z (Qfloor a)).
  { unfold Qminus. by apply Qplus_le_l. }
  unfold nearest. rewrite <- Heq.
  destruct (Qcompare (a - inject_Z (Qfloor a)) (1 # 2)) eqn:Ca;
    destruct (Qcompare (b - inject_Z (Qfloor a)) (1 # 2)) eqn:Cb;
    try (repeat case_match; lia).
  - (* a at the half, b below it *)
    apply Qeq_alt in Ca. apply Qlt_alt in Cb.
    rewrite Ca in Hf.
    exfalso. by apply (Qlt_not_le _ _ Cb).
  - (* a above the half, b at it *)
    apply Qgt_alt in Ca. apply Qeq_alt in Cb.
    rewrite Cb in Hf.
    exfalso. by apply (Qlt_not_le _ _ Ca).
  - (* a above the half, b below it *)
    apply Qgt_alt in Ca. apply Qlt_alt in Cb.
    exfalso. apply (Qlt_not_le _ _ Ca).
    apply Qle_trans with (b - inject_Z (Qfloor a)); [done|].
    by apply Qlt_le_weak.
Qed.

Lemma round2_mono a b : a <= b → round2 a <= round2 b.
Proof.
  intros Hab. unfold round2, Qle. cbn [Qnum Qden].
  assert (H100 : a * 100 <= b * 100).
  { apply Qmult_le_compat_r; [done | discriminate]. }
  pose proof (nearest_mono _ _ H100). lia.
Qed.

#[global] Instance laws : ClockLaws Q.
Proof.
  split.
  - split; [exact Qle_refl | exact Qle_trans].
  - intros a b s Hab. cbn [t_sub t_le clock] in *. unfold Qminus.
    by apply Qplus_le_l.
  - intros a b Hab. by apply round2_mono.
Qed.

End ExactClockLaws.

(** ** C8: [add_note] *)

Section AddNote.

Context {Time : Type} `{ClockLaws Time}.

Lemma add_note_idle now note_name frequency waveform (self : Recorder Time) :
  recording self = false →
  add_note now note_name frequency waveform self = self.
Proof. intros Hidle. unfold add_note. by rewrite Hidle. Qed.

Lemma add_note_recording now note_name frequency waveform
    (self : Recorder Time) :
  recording self = true →
  add_note now note_name frequency waveform self
  = {| recording := true;
       record_start_time := record_start_time self;
       recorded_notes :=
         recorded_notes self ++
           [ {| time := py_round2 (t_sub now (record_start_time self));
                note := note_name; freq := frequency; wave := waveform |} ];
       recordings_folder := recordings_folder self |}.
Proof. intros Hrec. unfold add_note. by rewrite Hrec. Qed.

(** A run of calls on a recording session appends their events in call
    order. *)
Lemma run_calls_recording (calls : list (NoteCall Time)) :
  ∀ self : Recorder Time,
    recording self = true →
    recorded_notes (foldl run_call self calls)
    = recorded_notes self ++ map (event_of (record_start_time self)) calls.
Proof.
  induction calls as [|c calls IH]; intros self Hrec; simpl.
  - by rewrite app_nil_r.
  - unfold run_call at 2. rewrite add_note_recording by done.
    rewrite IH by done. simpl. by rewrite <- app_assoc.
Qed.

Lemma run_calls_idle (calls : list (NoteCall Time)) (self : Recorder Time) :
  recording self = false → foldl run_call self calls = self.
Proof.
  intros Hidle. induction calls as [|c calls IH]; simpl; [done|].
  unfold run_call at 2. by rewrite add_note_idle.
Qed.

(** Offsets keep the order of the readings they come from. *)
Lemma offsets_sorted (start : Time) (calls : list (NoteCall Time)) :
  Sorted t_le (map call_now calls) →
  Sorted t_le (map time (map (event_of start) calls)).
Proof.
  induction calls as [|c calls IH]; simpl; [constructor|].
  intros Hs. apply Sorted_inv in Hs as [Hs Hhd].
  constructor; [by apply IH|].
  destruct calls as [|c' calls]; simpl in *; [constructor|].
  apply HdRel_inv in Hhd. constructor.
  by apply py_round2_mono, t_sub_mono.
Qed.

End AddNote.



(** ** C9: [save_recording] *)

(** C9.  [save_recording] never changes the recorder.  With no recorded note
    it returns [False] and leaves every file as it is.  When it returns
    [True] it has written one document, under
    [recordings_folder/recording_<stamp>.json], whose [total_notes] is the
    number of recorded notes and whose [notes] are the recorded notes in
    their order; when it returns [False] no file has changed.  It does return
    [True] whenever there is a note and the file can be opened. *)
Theorem C9_save_recording {Time : Type} `{Clock Time} (stamp : string)
    (now : Time) (self : Recorder Time) (fs : FileSystem Time) :
  ∃ (saved : bool) (fs' : FileSystem Time),
    save_recording stamp now self fs = (saved, self, fs')
    ∧ (recorded_notes self = [] → saved = false ∧ fs' = fs)
    ∧ (saved = false → fs' = fs)
    ∧ (saved = true →
       ∃ data,
         files fs'
         = <[path_join (recordings_folder self)
               ("recording_" +:+ stamp +:+ ".json") := data]> (files fs)
         ∧ unwritable fs' = unwritable fs
         ∧ total_notes data = length (recorded_notes self)
         ∧ notes data = recorded_notes self
         ∧ timestamp data = stamp
         ∧ duration data = py_round2 (t_sub now (record_start_time self)))
    ∧ (recorded_notes self ≠ [] →
       path_join (recordings_folder self)
         ("recording_" +:+ stamp +:+ ".json") ∉ unwritable fs →
       saved = true).
Proof.
  unfold save_recording.
  destruct (recorded_notes self) as [|ev evs] eqn:Hnotes.
  - exists false, fs. repeat split; try done.
  - case_decide as Hw.
    + exists false, fs. repeat split; try done.
    + eexists true, _. split; [reflexivity|].
      repeat split; try done.
      eexists. repeat split; reflexivity.
Qed.

(** * Further properties of the synthesizer *)

Section SynthState.

Variable libm : Libm.

(** [generate_sample] assigns [self.wave_points] and nothing else: after a call
    the synthesizer is the one before it, or that one with a new preview. *)
Lemma generate_sample_state len self :
  (generate_sample libm len self).2 = self
  ∨ ∃ wp, (generate_sample libm len self).2 = set_wave_points wp self.
Proof.
  destruct (generate_sample_cases libm len self)
    as [(e & _ & Hg)|[(n & _ & _ & Hg)|[(_ & _ & Hg)|
         (n & t & _ & _ & _ & _ & _ & Hg)]]]; rewrite Hg; try by left.
  right. unfold rendered.
  destruct (delay (effects self)); [|by eexists].
  destruct (delay_samples_of self); by eexists.
Qed.

(** A run that returns has stored its preview. *)
Lemma generate_sample_ok_state len self buf :
  (generate_sample libm len self).1 = Ok buf →
  ∃ wp, (generate_sample libm len self).2 = set_wave_points wp self.
Proof.
  destruct (generate_sample_cases libm len self)
    as [(e & _ & Hg)|[(n & _ & _ & Hg)|[(_ & _ & Hg)|
         (n & t & _ & _ & _ & _ & _ & Hg)]]]; rewrite Hg; try discriminate.
  intros _. unfold rendered.
  destruct (delay (effects self)); [|by eexists].
  destruct (delay_samples_of self); by eexists.
Qed.

End SynthState.

Section Channels.

Lemma roll_Forall {A} (P : A → Prop) (a : list A) s :
  Forall P a → Forall P (Np.roll a s).
Proof.
  intros Ha. unfold Np.roll. case_match; [done|].
  apply Forall_app. split; [by apply Forall_drop | by apply Forall_take].
Qed.

Lemma fill_prefix_Forall {A} (P : A → Prop) (v : A) s (a : list A) :
  P v → Forall P a → Forall P (Np.fill_prefix v s a).
Proof.
  intros Hv Ha. unfold Np.fill_prefix.
  apply Forall_app. split; [by apply Forall_replicate | by apply Forall_drop].
Qed.

Lemma mix_delay_dual_mono a d :
  Forall dual_mono a → Forall dual_mono (mix_delay a d).
Proof.
  intros Ha. unfold mix_delay. case_match; [|done].
  unfold frames_add, halved. apply Forall_lookup. intros i z Hz.
  apply lookup_zip_with_Some in Hz as (x & y & -> & Hx & Hy).
  rewrite lookup_map in Hy.
  destruct (Np.fill_prefix _ _ _ !! i) as [y'|] eqn:Hy'; [|done].
  injection Hy as <-.
  assert (Hdel : Forall dual_mono
                   (Np.fill_prefix (0%Z, 0%Z) d (Np.roll a d))).
  { apply fill_prefix_Forall; [done | by apply roll_Forall]. }
  rewrite Forall_lookup in Ha, Hdel.
  specialize (Ha _ _ Hx). specialize (Hdel _ _ Hy').
  unfold dual_mono in *. destruct x, y'. simpl in *. by subst.
Qed.

Lemma column_stack_dual_mono w : Forall dual_mono (column_stack w w).
Proof.
  apply Forall_lookup. intros i z. rewrite column_stack_diag_lookup.
  destruct (w !! i); [|done]. by intros [= <-].
Qed.

End Channels.

(** X1.  Every buffer [generate_sample] returns is dual mono: in each frame
    the left and the right sample are equal, with or without the delay, whatever
    the delay in samples. *)
Theorem X1_channels_equal (libm : Libm) (self : Synth) (len : float)
    (buf : Sound) :
  (generate_sample libm len self).1 = Ok buf →
  Forall dual_mono buf.
Proof.
  destruct (generate_sample_cases libm len self)
    as [(e & _ & Hg)|[(n & _ & _ & Hg)|[(_ & _ & Hg)|
         (n & t & _ & _ & _ & _ & _ & Hg)]]]; rewrite Hg; try discriminate.
  unfold rendered. destruct (delay (effects self)).
  - destruct (delay_samples_of self) as [d|e]; [|discriminate].
    intros [= <-]. apply mix_delay_dual_mono, column_stack_dual_mono.
  - intros [= <-]. apply column_stack_dual_mono.
Qed.

(** X1 applies to the 0.0005 s sawtooth buffer with a delay of 4 samples. *)
Lemma X1_channels_equal_witness :
  let self :=
    set_effects {| distortion := false; delay := true;
                   low_pass := false; bit_crush := true |}
      (set_delay_time 1e-4 (set_waveform "sawtooth" Synth_init)) in
  Forall dual_mono
    (match (generate_sample ExampleLibm.libm 0.0005 self).1 with
     | Ok buf => buf
     | Raise _ => []
     end).
Proof.
  intros self.
  apply (X1_channels_equal ExampleLibm.libm self 0.0005).
  vm_compute. reflexivity.
Defined.

(** X2.  With the delay enabled, a buffer that is not longer than the delay in
    samples is returned as it is without the delay: the delay stage only acts
    on buffers of more than [int(SAMPLE_RATE * delay_time)] frames. *)
Theorem X2_short_buffer_is_not_delayed (libm : Libm) (self : Synth)
    (len : float) (dry : Sound) (d : Z) :
  delay (effects self) = true →
  (generate_sample libm len (without_delay self)).1 = Ok dry →
  delay_samples_of self = Ok d →
  (Z.of_nat (length dry) ≤ d)%Z →
  (generate_sample libm len self).1 = Ok dry.
Proof.
  intros Hdelay Hdry Hd Hshort.
  destruct (generate_sample_delay libm len self dry d Hdelay Hdry Hd)
    as [-> _].
  unfold mix_delay. destruct (Z.ltb_spec d (Z.of_nat (length dry))); [lia|done].
Qed.

(** X2 applies to a 0.0005 s buffer (22 frames) with the delay of
    [Synth.__init__], 0.3 s (13230 frames). *)
Lemma X2_short_buffer_is_not_delayed_witness :
  let self :=
    set_effects {| distortion := false; delay := true;
                   low_pass := false; bit_crush := true |}
      (set_waveform "sawtooth" Synth_init) in
  (generate_sample ExampleLibm.libm 0.0005 self).1
  = (generate_sample ExampleLibm.libm 0.0005 (without_delay self)).1.
Proof.
  intros self.
  rewrite (X2_short_buffer_is_not_delayed ExampleLibm.libm self 0.0005
             (match (generate_sample ExampleLibm.libm 0.0005
                       (without_delay self)).1 with
              | Ok buf => buf
              | Raise _ => []
              end) 13230).
  - vm_compute. reflexivity.
  - reflexivity.
  - vm_compute. reflexivity.
  - vm_compute. reflexivity.
  - vm_compute. discriminate.
Defined.

(** A negative shift of [k] rows, [0 < k < n]: [np.roll] turns the array the
    other way and [delayed[:-k] = 0] clears all but the last [k] rows, which
    then hold the first [k] rows of the array. *)
Lemma roll_fill_prefix_negative {A} (v : A) (a : list A) (k : nat) :
  0 < k < length a →
  Np.fill_prefix v (- Z.of_nat k) (Np.roll a (- Z.of_nat k))
  = replicate (length a - k) v ++ take k a.
Proof.
  intros Hk. unfold Np.roll, Np.fill_prefix, Np.slice_stop.
  destruct (Z.eqb_spec (Z.of_nat (length a)) 0); [lia|].
  replace ((- Z.of_nat k) `mod` Z.of_nat (length a))%Z
    with (Z.of_nat (length a) - Z.of_nat k)%Z; last first.
  { apply (Z.mod_unique_pos _ _ (-1)); lia. }
  replace (Z.to_nat (Z.of_nat (length a)
                     - (Z.of_nat (length a) - Z.of_nat k)))
    with k by lia.
  destruct (Z.ltb_spec (- Z.of_nat k) 0); [|lia].
  rewrite length_app, length_drop, length_take.
  replace (Z.to_nat (Z.of_nat (length a - k + k `min` length a)
                     + - Z.of_nat k))
    with (length a - k) by lia.
  f_equal. rewrite drop_app_length'; [done|].
  rewrite length_drop. lia.
Qed.

(** X3.  A negative delay in samples [-k], with [0 < k < n] on a buffer of [n]
    frames, acts as the delay of [n - k] samples: the first [n - k] frames are
    unchanged and the first [k] frames are mixed, halved, into the last [k]. *)
Theorem X3_negative_delay (libm : Libm) (self : Synth) (len : float)
    (dry : Sound) (k : nat) :
  delay (effects self) = true →
  (generate_sample libm len (without_delay self)).1 = Ok dry →
  delay_samples_of self = Ok (- Z.of_nat k)%Z →
  0 < k < length dry →
  (generate_sample libm len self).1
  = Ok (mix_delay dry (Z.of_nat (length dry - k)))
  ∧ (generate_sample libm len self).1
    = Ok (frames_add dry
            (halved (replicate (length dry - k) (0, 0)%Z ++ take k dry))).
Proof.
  intros Hdelay Hdry Hd Hk.
  destruct (generate_sample_delay libm len self dry _ Hdelay Hdry Hd)
    as [-> _].
  assert (Hneg : mix_delay dry (- Z.of_nat k)
                 = frames_add dry
                     (halved (replicate (length dry - k) (0, 0)%Z
                              ++ take k dry))).
  { unfold mix_delay.
    destruct (Z.ltb_spec (- Z.of_nat k) (Z.of_nat (length dry))); [|lia].
    by rewrite roll_fill_prefix_negative. }
  rewrite Hneg. split; [|done].
  rewrite mix_delay_shift by lia.
  by replace (length dry - (length dry - k)) with k by lia.
Qed.

(** X3 applies to a 0.0005 s buffer (22 frames) with a delay time of
    -0.0001 s, whose delay in samples is -4. *)
Lemma X3_negative_delay_witness :
  let self :=
    set_effects {| distortion := false; delay := true;
                   low_pass := false; bit_crush := true |}
      (set_delay_time (-1e-4) (set_waveform "sawtooth" Synth_init)) in
  let dry :=
    match (generate_sample ExampleLibm.libm 0.0005 (without_delay self)).1 with
    | Ok buf => buf
    | Raise _ => []
    end in
  (generate_sample ExampleLibm.libm 0.0005 self).1
  = Ok (mix_delay dry (Z.of_nat (length dry - 4)))
  ∧ (generate_sample ExampleLibm.libm 0.0005 self).1
    = Ok (frames_add dry
            (halved (replicate (length dry - 4) (0, 0)%Z ++ take 4 dry))).
Proof.
  intros self dry.
  apply (X3_negative_delay ExampleLibm.libm self 0.0005 dry 4).
  - reflexivity.
  - vm_compute. reflexivity.
  - vm_compute. reflexivity.
  - vm_compute. lia.
Defined.

(** X4.  [generate_sample] changes no attribute of the synthesizer but
    [wave_points]; a call that returns has stored a preview of 300 samples,
    or of as many samples as the returned buffer has frames when these are
    fewer; a call that raises at [int(...)], at [np.linspace] or at the
    low-pass filter leaves the synthesizer as it was. *)
Theorem X4_generate_sample_keeps_settings (libm : Libm) (self : Synth)
    (len : float) :
  let self' := (generate_sample libm len self).2 in
  (frequency self' = frequency self
   ∧ waveform self' = waveform self
   ∧ volume self' = volume self
   ∧ playing self' = playing self
   ∧ sound self' = sound self
   ∧ current_note self' = current_note self
   ∧ effects self' = effects self
   ∧ delay_time self' = delay_time self
   ∧ distortion_amount self' = distortion_amount self
   ∧ bit_crush_factor self' = bit_crush_factor self)
  ∧ (∀ buf, (generate_sample libm len self).1 = Ok buf →
        length (wave_points self') = Nat.min 300 (length buf))
  ∧ (is_ok (sample_count len) = false
     ∨ (∃ n, sample_count len = Ok n ∧ (n < 0)%Z)
     ∨ (sample_count len = Ok 0%Z ∧ low_pass (effects self) = true) →
     self' = self).
Proof.
  cbv zeta. split; [|split].
  - destruct (generate_sample_state libm len self) as [-> | [wp ->]];
      by repeat split.
  - intros buf.
    destruct (generate_sample_cases libm len self)
      as [(e & _ & Hg)|[(n & _ & _ & Hg)|[(_ & _ & Hg)|
           (n & t & _ & _ & _ & _ & _ & Hg)]]]; rewrite Hg; try discriminate.
    unfold rendered. destruct (delay (effects self)).
    + destruct (delay_samples_of self) as [d|e]; [|discriminate].
      intros [= <-]. cbn [snd wave_points set_wave_points].
      by rewrite length_take, mix_delay_length, column_stack_diag_length.
    + intros [= <-]. cbn [snd wave_points set_wave_points].
      by rewrite length_take, column_stack_diag_length.
  - intros [Hraise | [(n & Hn & Hneg) | (Hn & Hlp)]].
    + destruct (sample_count len) as [n|e] eqn:Hn; [discriminate|].
      by rewrite (generate_sample_raise_count libm len self e Hn).
    + by rewrite (generate_sample_raise_linspace libm len self n Hn Hneg).
    + by rewrite (generate_sample_raise_low_pass libm len self Hn Hlp).
Qed.

(** X5.  [play_note] first stores the frequency, the waveform and the note
    name, then renders.  When the rendering returns a buffer, that buffer
    becomes [self.sound], [self.playing] is set, and volume, effects and effect
    parameters are as before.  When the rendering raises, [play_note] raises
    the same exception: the synthesizer then already shows the new note,
    frequency and waveform, while [self.sound] and [self.playing] are those of
    before the call. *)
Theorem X5_play_note_outcome (libm : Libm) (freq : float)
    (note_name waveform_name : string) (duration : float) (self : Synth) :
  let named :=
    set_current_note (Some note_name)
      (set_waveform waveform_name (set_frequency freq self)) in
  let after := (play_note libm freq note_name waveform_name duration self).2 in
  frequency after = freq
  ∧ waveform after = waveform_name
  ∧ current_note after = Some note_name
  ∧ volume after = volume self
  ∧ effects after = effects self
  ∧ delay_time after = delay_time self
  ∧ distortion_amount after = distortion_amount self
  ∧ bit_crush_factor after = bit_crush_factor self
  ∧ match (generate_sample libm duration named).1 with
    | Ok buf =>
        (play_note libm freq note_name waveform_name duration self).1 = Ok tt
        ∧ sound after = Some buf
        ∧ playing after = true
        ∧ wave_points after
          = wave_points (generate_sample libm duration named).2
    | Raise e =>
        (play_note libm freq note_name waveform_name duration self).1 = Raise e
        ∧ sound after = sound self
        ∧ playing after = playing self
    end.
Proof.
  cbv zeta.
  unfold play_note, mbind, SynthM_bind, update_self.
  set (named := set_current_note _ _).
  pose proof (generate_sample_state libm duration named) as Hst.
  destruct (generate_sample libm duration named) as [[buf|e] s'] eqn:Hg;
    cbn [fst snd] in *;
    destruct Hst as [-> | [wp ->]]; by repeat split.
Qed.

(** * Further properties of the recorder *)

Module ExactClockOrigin.

Import ExactClock.

#[global] Instance origin : ClockOrigin Q.
Proof.
  split. intros a. cbn [t_le t_zero t_sub py_round2 clock].
  unfold round2, Qle. cbn [Qnum Qden].
  assert (Hz : ((a - a) * 100 == 0)%Q) by ring.
  assert (Hn : nearest ((a - a) * 100) = 0%Z).
  { unfold nearest.
    assert (Hf : Qfloor ((a - a) * 100) = 0%Z).
    { change 0%Z with (Qfloor 0). by apply Qfloor_comp. }
    rewrite Hf.
    assert (Hlt : ((a - a) * 100 - inject_Z 0 < 1 # 2)%Q).
    { rewrite Hz. reflexivity. }
    change (Qcompare ((a - a) * 100 - inject_Z 0) (1 # 2) = Lt) in Hlt.
    by rewrite Hlt. }
  rewrite Hn. lia.
Qed.

End ExactClockOrigin.

Section SessionLog.

Context {Time : Type} `{ClockLaws Time} `{!ClockOrigin Time}.

Lemma session_invariant (ops : list (RecorderOp Time)) :
  ∀ (self : Recorder Time) (cs before : list (NoteCall Time)),
    StronglySorted t_le (op_readings ops) →
    logged self cs →
    cs `sublist_of` before →
    (∀ c x, c ∈ cs → x ∈ op_readings ops → t_le (call_now c) x) →
    (recording self = true →
     ∀ x, x ∈ op_readings ops → t_le (record_start_time self) x) →
    ∃ cs', logged (foldl run_op self ops) cs'
           ∧ cs' `sublist_of` before ++ op_calls ops.
Proof.
  induction ops as [|op ops IH]; intros self cs before Hs Hlog Hsub Hcs Hstart.
  { exists cs. split; [done|]. simpl. by rewrite app_nil_r. }
  destruct op as [now| |c]; cbn [foldl run_op op_readings op_calls flat_map] in *.
  - (* start_recording *)
    apply StronglySorted_inv in Hs as [Hs Hnow].
    rewrite Forall_forall in Hnow.
    destruct (IH (start_recording now self) [] before) as (cs' & Hl & Hsb).
    + done.
    + repeat split; constructor.
    + apply sublist_nil_l.
    + intros c x Hc. by apply elem_of_nil in Hc.
    + intros _ x Hx. cbn [record_start_time start_recording].
      by apply Hnow.
    + exists cs'. split; [done|]. simpl. done.
  - (* stop_recording *)
    destruct (IH (stop_recording self) cs before) as (cs' & Hl & Hsb);
      try done.
    exists cs'. split; [done|]. done.
  - (* add_note *)
    apply StronglySorted_inv in Hs as [Hs Hnow].
    rewrite Forall_forall in Hnow.
    unfold run_call, add_note.
    destruct (recording self) eqn:Hrec.
    + destruct Hlog as (Hnotes & Hsorted & Hafter).
      destruct (IH {| recording := true;
                      record_start_time := record_start_time self;
                      recorded_notes :=
                        recorded_notes self ++
                          [ {| time := py_round2
                                         (t_sub (call_now c)
                                            (record_start_time self));
                               note := call_note c; freq := call_freq c;
                               wave := call_wave c |} ];
                      recordings_folder := recordings_folder self |}
                  (cs ++ [c]) (before ++ [c])) as (cs' & Hl & Hsb).
      * done.
      * repeat split; cbn [recorded_notes record_start_time].
        -- rewrite Hnotes, map_app. reflexivity.
        -- rewrite map_app.
           apply StronglySorted_app_2; [|done|repeat constructor].
           intros x1 x2 Hx1 Hx2. simpl in Hx2.
           apply list_elem_of_singleton in Hx2 as ->.
           rewrite map_fmap in Hx1.
           apply list_elem_of_fmap in Hx1 as (c1 & -> & Hc1).
           apply (Hcs c1 (call_now c) Hc1). by left.
        -- apply Forall_app. split; [done|]. constructor; [|constructor].
           apply (Hstart eq_refl). by left.
      * by apply sublist_app.
      * intros c1 x Hc1 Hx. apply elem_of_app in Hc1 as [Hc1|Hc1].
        -- apply (Hcs c1 x Hc1). by right.
        -- apply list_elem_of_singleton in Hc1 as ->.
           by apply Hnow.
      * intros _ x Hx. cbn [record_start_time].
        apply (Hstart eq_refl). by right.
      * exists cs'. split; [done|]. simpl. by rewrite <- app_assoc in Hsb.
    + destruct (IH self cs (before ++ [c])) as (cs' & Hl & Hsb); try done.
      * by apply sublist_inserts_r.
      * intros c1 x Hc1 Hx. apply (Hcs c1 x Hc1). by right.
      * congruence.
      * exists cs'. split; [done|]. simpl. by rewrite <- app_assoc in Hsb.
Qed.

Lemma logged_sorted self cs :
  logged self cs → Sorted t_le (map time (recorded_notes self)).
Proof.
  intros (-> & Hs & _). apply offsets_sorted.
  by apply StronglySorted_Sorted.
Qed.

Lemma logged_not_negative self cs :
  logged self cs → Forall (λ ev, t_le t_zero (time ev)) (recorded_notes self).
Proof.
  intros (-> & _ & Hafter). rewrite map_fmap. apply Forall_fmap.
  eapply Forall_impl; [exact Hafter|].
  intros c Hc. cbn [compose event_of time].
  transitivity (py_round2 (t_sub (record_start_time self)
                             (record_start_time self))).
  - apply t_origin.
  - by apply py_round2_mono, t_sub_mono.
Qed.

End SessionLog.



(** ** The files of the recorder *)

Section FileNames.

Lemma string_length_app (s t : string) :
  String.length (s +:+ t) = String.length s + String.length t.
Proof. induction s as [|a s IH]; simpl; [done | by rewrite IH]. Qed.

Lemma string_app_inj_r (t : string) : ∀ s1 s2, s1 +:+ t = s2 +:+ t → s1 = s2.
Proof.
  induction s1 as [|a s1 IH]; intros [|b s2] Heq; simpl in Heq.
  - done.
  - apply (f_equal String.length) in Heq.
    rewrite !string_length_app in Heq. simpl in Heq. lia.
  - apply (f_equal String.length) in Heq.
    rewrite !string_length_app in Heq. simpl in Heq. lia.
  - injection Heq as -> Heq. f_equal. by apply IH.
Qed.

(** Two stamps name two files. *)
Lemma recording_filename_inj (stamp1 stamp2 : string) :
  recording_filename stamp1 = recording_filename stamp2 → stamp1 = stamp2.
Proof.
  unfold recording_filename. intros Heq.
  apply (inj (String.append "recording_")) in Heq.
  by apply string_app_inj_r in Heq.
Qed.

Lemma path_join_inj (folder f1 f2 : string) :
  path_join folder f1 = path_join folder f2 → f1 = f2.
Proof.
  unfold path_join. intros Heq.
  apply (inj (String.append folder)) in Heq.
  by apply (inj (String.append "/")) in Heq.
Qed.

End FileNames.

Section SaveLoad.

Context {Time : Type} `{Clock Time}.

(** A save that returns [True] has put its document under the stamp's path and
    touched nothing else. *)
Lemma save_recording_true stamp now (self : Recorder Time)
    (fs fs' : FileSystem Time) :
  save_recording stamp now self fs = (true, self, fs') →
  fs' = {| files :=
             <[path_join (recordings_folder self) (recording_filename stamp) :=
                 {| timestamp := stamp;
                    duration := py_round2 (t_sub now (record_start_time self));
                    total_notes := length (recorded_notes self);
                    notes := recorded_notes self |}]> (files fs);
           unwritable := unwritable fs |}
  ∧ recorded_notes self ≠ []
  ∧ path_join (recordings_folder self) (recording_filename stamp)
    ∉ unwritable fs.
Proof.
  unfold save_recording, recording_filename.
  destruct (recorded_notes self) as [|ev evs] eqn:Hn; [discriminate|].
  case_decide as Hw; [discriminate|].
  intros [= <-]. by repeat split.
Qed.

Lemma save_recording_writable stamp now (self : Recorder Time)
    (fs : FileSystem Time) :
  recorded_notes self ≠ [] →
  path_join (recordings_folder self) (recording_filename stamp)
    ∉ unwritable fs →
  save_recording stamp now self fs
  = (true, self,
     {| files :=
          <[path_join (recordings_folder self) (recording_filename stamp) :=
              {| timestamp := stamp;
                 duration := py_round2 (t_sub now (record_start_time self));
                 total_notes := length (recorded_notes self);
                 notes := recorded_notes self |}]> (files fs);
        unwritable := unwritable fs |}).
Proof.
  intros Hnotes Hw. unfold save_recording, recording_filename in *.
  destruct (recorded_notes self) as [|ev evs] eqn:Hn; [done|].
  by case_decide.
Qed.

End SaveLoad.


(** X8.  Two saves under one stamp (within one second of the wall clock) leave
    what the second alone would have left: the first document is
    overwritten.  Two saves under different stamps leave both documents,
    each loadable under its own name. *)
Theorem X8_saves_by_stamp {Time : Type} `{Clock Time} (stamp1 stamp2 : string)
    (now1 now2 : Time) (self : Recorder Time) (fs fs1 fs2 : FileSystem Time) :
  save_recording stamp1 now1 self fs = (true, self, fs1) →
  save_recording stamp2 now2 self fs1 = (true, self, fs2) →
  (stamp1 = stamp2 →
   save_recording stamp2 now2 self fs = (true, self, fs2))
  ∧ (stamp1 ≠ stamp2 →
     load_recording (recording_filename stamp1) self fs2
     = load_recording (recording_filename stamp1) self fs1
     ∧ is_Some (load_recording (recording_filename stamp1) self fs2)
     ∧ is_Some (load_recording (recording_filename stamp2) self fs2)).
Proof.
  intros H1 H2.
  apply save_recording_true in H1 as (-> & Hnotes & Hw1).
  apply save_recording_true in H2 as (-> & _ & Hw2).
  cbn [files unwritable] in *. split.
  - intros <-. rewrite save_recording_writable by done.
    by rewrite insert_insert_eq.
  - intros Hne. unfold load_recording. cbn [files].
    assert (Hp : path_join (recordings_folder self) (recording_filename stamp2)
                 ≠ path_join (recordings_folder self)
                     (recording_filename stamp1)).
    { intros Heq. apply path_join_inj, recording_filename_inj in Heq.
      by subst. }
    rewrite lookup_insert_ne by done.
    rewrite !lookup_insert_eq. by repeat split.
Qed.


(** X8 applies to two saves of a one-note recorder, one minute apart. *)
Lemma X8_saves_by_stamp_witness :
  let stamp1 := "20240101_120000" in
  let stamp2 := "20240101_120100" in
  let fs1 := (save_recording stamp1 30%Q one_note_recorder no_files).2 in
  let fs2 := (save_recording stamp2 90%Q one_note_recorder fs1).2 in
  (stamp1 = stamp2 →
   save_recording stamp2 90%Q one_note_recorder no_files
   = (true, one_note_recorder, fs2))
  ∧ (stamp1 ≠ stamp2 →
     load_recording (recording_filename stamp1) one_note_recorder fs2
     = load_recording (recording_filename stamp1) one_note_recorder fs1
     ∧ is_Some (load_recording (recording_filename stamp1)
                  one_note_recorder fs2)
     ∧ is_Some (load_recording (recording_filename stamp2)
                  one_note_recorder fs2)).
Proof.
  intros stamp1 stamp2 fs1 fs2.
  apply (X8_saves_by_stamp stamp1 stamp2 30%Q 90%Q one_note_recorder
           no_files fs1 fs2); reflexivity.
Defined.

(** * Properties of the event handling *)

Section PlayOneSecond.

Variable libm : Libm.

Lemma sample_count_one_second : sample_count 1 = Ok 44100%Z.
Proof. vm_compute. reflexivity. Qed.

(** A note of one second is always rendered when the delay in samples is
    defined: 44100 frames. *)
Lemma play_note_one_second freq note_name waveform_name (self : Synth) :
  is_ok (delay_samples_of self) = true →
  ∃ buf wp,
    play_note libm freq note_name waveform_name 1 self
    = (Ok tt,
       set_playing true
         (set_sound (Some buf)
            (set_wave_points wp
               (set_current_note (Some note_name)
                  (set_waveform waveform_name (set_frequency freq self))))))
    ∧ length buf = Z.to_nat 44100.
Proof.
  intros Hd.
  unfold play_note, mbind, SynthM_bind, update_self.
  set (named := set_current_note _ _).
  destruct (generate_sample_cases libm 1 named)
    as [(e & He & _)|[(n & Hn & Hneg & _)|[(Hn & _ & _)|
         (n & t & Hn & _ & _ & Hlen & _ & Hg)]]];
    rewrite sample_count_one_second in *; try discriminate.
  { injection Hn as <-. lia. }
  injection Hn as <-. rewrite Hg. unfold rendered.
  change (delay_samples_of named) with (delay_samples_of self).
  destruct (delay (effects named)).
  - destruct (delay_samples_of self) as [d|e]; [|discriminate].
    eexists _, _. split; [reflexivity|].
    by rewrite mix_delay_length, column_stack_diag_length, mono_16bit_length.
  - eexists _, _. split; [reflexivity|].
    by rewrite column_stack_diag_length, mono_16bit_length.
Qed.

End PlayOneSecond.

Section Handler.

Variable libm : Libm.
Context {Time : Type} `{Clock Time}.

Lemma current_waveform_name_ready (app : App Time) :
  (0 ≤ current_waveform app < 4)%Z →
  ∃ wf, waveforms !! Z.to_nat (current_waveform app) = Some wf
        ∧ current_waveform_name app = Done (wf_name wf).
Proof.
  intros Hcw. unfold current_waveform_name, py_getitem.
  destruct (Z.leb_spec 0 (current_waveform app)); [|lia].
  destruct (waveforms !! Z.to_nat (current_waveform app)) as [wf|] eqn:Hwf.
  - by exists wf.
  - apply lookup_ge_None in Hwf. simpl in Hwf. lia.
Qed.

(** The piano block on a key of the table, in a ready state. *)
Lemma piano_keys_found key env (app : App Time) key_info :
  app_ready app →
  find (λ key_info, (key =? key_code key_info)%Z) keys = Some key_info →
  ∃ wf buf wp,
    waveforms !! Z.to_nat (current_waveform app) = Some wf
    ∧ length buf = Z.to_nat 44100
    ∧ piano_keys libm key env app
      = let synth' :=
          set_playing true
            (set_sound (Some buf)
               (set_wave_points wp
                  (set_current_note (Some (key_note key_info))
                     (set_waveform (wf_name wf)
                        (set_frequency (key_freq key_info) (synth app)))))) in
        Done (with_recorder
                (add_note (at_add_note env) (key_note key_info)
                   (key_freq key_info) (wf_name wf) (recorder app))
                (with_synth synth' app)).
Proof.
  intros [Hcw Hd] Hfind.
  destruct (current_waveform_name_ready app Hcw) as (wf & Hwf & Hname).
  destruct (play_note_one_second libm (key_freq key_info) (key_note key_info)
              (wf_name wf) (synth app) Hd) as (buf & wp & Hplay & Hlen).
  exists wf, buf, wp. split; [done|]. split; [done|].
  unfold piano_keys. rewrite Hfind, Hname. cbn [mbind outcome_bind].
  rewrite Hplay. cbv zeta.
  change (recorder (with_synth _ app)) with (recorder app).
  change (current_waveform_name (with_synth _ app))
    with (current_waveform_name app).
  rewrite Hname. cbn [mbind outcome_bind].
  unfold add_note. by destruct (recording (recorder app)), app.
Qed.

Lemma piano_keys_not_found key env (app : App Time) :
  find (λ key_info, (key =? key_code key_info)%Z) keys = None →
  piano_keys libm key env app = Done app.
Proof. intros Hfind. unfold piano_keys. by rewrite Hfind. Qed.

End Handler.

Section HandlerBlocks.

Variable libm : Libm.
Context {Time : Type} `{Clock Time}.

Lemma with_synth_same_effects (app : App Time) :
  with_synth (set_effects (effects (synth app)) (synth app)) app = app.
Proof. by destruct app as [[] ? ? ? ?]. Qed.

(** The pedal block never raises [KeyError]: it returns the state with some
    effects dictionary, the one before when the key is no pedal's. *)
Lemma effect_pedals_done key (app : App Time) :
  ∃ e', effect_pedals key app
        = Done (with_synth (set_effects e' (synth app)) app)
        ∧ (key ∉ map pedal_key pedals → e' = effects (synth app)).
Proof.
  unfold effect_pedals, pedals. cbn [foldl pedal_key pedal_effect].
  destruct (Z.eqb_spec key pygame.K_1) as [->|H1].
  { eexists. split; [reflexivity|]. intros Hn. exfalso. apply Hn.
    vm_compute. by left. }
  destruct (Z.eqb_spec key pygame.K_2) as [->|H2].
  { eexists. split; [reflexivity|]. intros Hn. exfalso. apply Hn.
    vm_compute. right. by left. }
  destruct (Z.eqb_spec key pygame.K_3) as [->|H3].
  { eexists. split; [reflexivity|]. intros Hn. exfalso. apply Hn.
    vm_compute. right. right. by left. }
  destruct (Z.eqb_spec key pygame.K_4) as [->|H4].
  { eexists. split; [reflexivity|]. intros Hn. exfalso. apply Hn.
    vm_compute. right. right. right. by left. }
  exists (effects (synth app)). split; [|done].
  cbn [mbind outcome_bind]. by rewrite with_synth_same_effects.
Qed.

Lemma waveform_change_ready key (app : App Time) :
  app_ready app → app_ready (waveform_change key app).
Proof.
  intros [Hcw Hd]. unfold waveform_change.
  case_match; [|done]. split; [|done].
  cbn [current_waveform with_current_waveform length waveforms].
  apply Z.mod_pos_bound. lia.
Qed.

Lemma recording_controls_ready key env (app : App Time) :
  app_ready app → app_ready (recording_controls key env app).
Proof. intros Hr. unfold recording_controls. by repeat case_match. Qed.

Lemma save_or_exit_ready key env (app : App Time) fs :
  app_ready app → app_ready (save_or_exit key env app fs).1.
Proof.
  intros Hr. unfold save_or_exit.
  repeat case_match; try done.
Qed.

Lemma piano_keys_ready key env (app : App Time) :
  app_ready app →
  ∃ app', piano_keys libm key env app = Done app' ∧ app_ready app'.
Proof.
  intros Hr.
  destruct (find (λ key_info, (key =? key_code key_info)%Z) keys)
    as [key_info|] eqn:Hfind.
  - destruct (piano_keys_found libm key env app key_info Hr Hfind)
      as (wf & buf & wp & _ & _ & ->).
    eexists. split; [reflexivity|]. exact Hr.
  - rewrite piano_keys_not_found by done. by exists app.
Qed.

Lemma on_keydown_ready key env (app : App Time) fs :
  app_ready app →
  ∃ app' fs', on_keydown libm key env app fs = Done (app', fs')
              ∧ app_ready app'.
Proof.
  intros Hr. unfold on_keydown.
  destruct (piano_keys_ready key env app Hr) as (app1 & -> & Hr1).
  cbn [mbind outcome_bind].
  pose proof (waveform_change_ready key app1 Hr1) as Hr2.
  destruct (effect_pedals_done key (waveform_change key app1))
    as (e' & -> & _).
  cbn [mbind outcome_bind].
  set (app3 := with_synth _ _).
  assert (Hr3 : app_ready app3) by exact Hr2.
  destruct (save_or_exit key env (recording_controls key env app3) fs)
    as [app' fs'] eqn:Hse.
  exists app', fs'. split; [done|].
  change app' with (app', fs').1. rewrite <- Hse.
  by apply save_or_exit_ready, recording_controls_ready.
Qed.

End HandlerBlocks.



Section KeyTable.

Context {Time : Type} `{Clock Time}.

Lemma not_in_pedal_keys (key : Z) :
  key ≠ pygame.K_1 → key ≠ pygame.K_2 → key ≠ pygame.K_3 →
  key ≠ pygame.K_4 → key ∉ map pedal_key pedals.
Proof.
  intros H1 H2 H3 H4 Hin. cbn in Hin.
  repeat (apply elem_of_cons in Hin as [Hin|Hin]; [done|]).
  by apply elem_of_nil in Hin.
Qed.

(** Each entry of [keys] is the first with its key code, and its key is not
    the space bar, a pedal's key, R or Escape. *)
Lemma keys_facts (key_info : KeyInfo) :
  key_info ∈ keys →
  find (λ k, (key_code key_info =? key_code k)%Z) keys = Some key_info
  ∧ key_code key_info ≠ pygame.K_SPACE
  ∧ (key_code key_info ∉ map pedal_key pedals)
  ∧ key_code key_info ≠ pygame.K_r
  ∧ key_code key_info ≠ pygame.K_ESCAPE.
Proof.
  intros Hin. unfold keys in Hin.
  repeat (apply elem_of_cons in Hin as [->|Hin]);
    try (by apply elem_of_nil in Hin);
    (split; [reflexivity|split; [discriminate|split;
       [by apply not_in_pedal_keys|split; discriminate]]]).
Qed.

Lemma find_key_none (key : Z) (l : list KeyInfo) :
  key ∉ map key_code l →
  find (λ k, (key =? key_code k)%Z) l = None.
Proof.
  induction l as [|k l IH]; intros Hn; [done|]. cbn [find].
  cbn [map] in Hn. apply not_elem_of_cons in Hn as [Hne Hn].
  destruct (Z.eqb_spec key (key_code k)); [done|]. by apply IH.
Qed.

Lemma save_recording_self stamp now (self : Recorder Time)
    (fs : FileSystem Time) :
  ∃ saved fs', save_recording stamp now self fs = (saved, self, fs').
Proof.
  unfold save_recording. destruct (recorded_notes self); [by eexists _, _|].
  case_decide; by eexists _, _.
Qed.

End KeyTable.



Section OtherKeys.

Variable libm : Libm.
Context {Time : Type} `{Clock Time}.

Lemma with_current_waveform_same (app : App Time) :
  with_current_waveform (current_waveform app) app = app.
Proof. by destruct app. Qed.

Lemma with_recorder_same (app : App Time) :
  with_recorder (recorder app) app = app.
Proof. by destruct app. Qed.

(** A key that is in no entry of [keys] skips the piano block. *)
Lemma on_keydown_no_piano key env (app : App Time) fs :
  key ∉ map key_code keys →
  on_keydown libm key env app fs
  = (app ← effect_pedals key (waveform_change key app);
     Done (save_or_exit key env (recording_controls key env app) fs)).
Proof.
  intros Hn. unfold on_keydown.
  by rewrite (piano_keys_not_found libm key env app (find_key_none key keys Hn)).
Qed.

Lemma not_a_piano_key (key : Z) :
  Forall (λ k, key ≠ key_code k) keys → key ∉ map key_code keys.
Proof.
  intros Hall Hin. rewrite map_fmap in Hin.
  apply list_elem_of_fmap in Hin as (k & -> & Hk).
  rewrite Forall_forall in Hall. by apply (Hall k).
Qed.

Lemma space_not_a_piano_key : pygame.K_SPACE ∉ map key_code keys.
Proof. apply not_a_piano_key. repeat constructor; discriminate. Qed.

Lemma r_not_a_piano_key : pygame.K_r ∉ map key_code keys.
Proof. apply not_a_piano_key. repeat constructor; discriminate. Qed.

Lemma pedal_not_a_piano_key (p : Pedal) :
  p ∈ pedals → pedal_key p ∉ map key_code keys.
Proof.
  intros Hin. unfold pedals in Hin.
  repeat (apply elem_of_cons in Hin as [->|Hin]);
    try (by apply elem_of_nil in Hin);
    apply not_a_piano_key; repeat constructor; discriminate.
Qed.

Lemma on_keydown_space env (app : App Time) fs :
  on_keydown libm pygame.K_SPACE env app fs
  = Done (with_current_waveform
            ((current_waveform app + 1) `mod` 4)%Z app, fs).
Proof.
  rewrite on_keydown_no_piano by apply space_not_a_piano_key.
  destruct (effect_pedals_done pygame.K_SPACE
              (waveform_change pygame.K_SPACE app)) as (e' & -> & He').
  rewrite He' by (by apply not_in_pedal_keys).
  by rewrite with_synth_same_effects.
Qed.

End OtherKeys.



(** X12.  The space bar selects the next of the four waveforms and changes
    nothing else; in a ready state four presses bring the program back to the
    state it was in. *)
Theorem X12_space_cycles_waveforms (libm : Libm) {Time : Type} `{Clock Time}
    (e1 e2 e3 e4 : Readings Time) (app : App Time) (fs : FileSystem Time) :
  app_ready app →
  on_keydown libm pygame.K_SPACE e1 app fs
  = Done (with_current_waveform
            ((current_waveform app + 1) `mod` 4)%Z app, fs)
  ∧ handle_events libm
      [ (KEYDOWN pygame.K_SPACE, e1); (KEYDOWN pygame.K_SPACE, e2);
        (KEYDOWN pygame.K_SPACE, e3); (KEYDOWN pygame.K_SPACE, e4) ] app fs
    = Done (app, fs).
Proof.
  intros [Hcw _]. split; [apply on_keydown_space|].
  unfold handle_events.
  cbn [foldl mbind outcome_bind fst snd handle_event].
  rewrite !on_keydown_space. cbn [mbind outcome_bind].
  rewrite !on_keydown_space. cbn [mbind outcome_bind].
  rewrite !on_keydown_space. cbn [mbind outcome_bind].
  rewrite !on_keydown_space.
  cbn [current_waveform with_current_waveform].
  replace (((((current_waveform app + 1) `mod` 4 + 1) `mod` 4 + 1) `mod` 4
            + 1) `mod` 4)%Z with (current_waveform app); last first.
  { assert (Hc : current_waveform app = 0%Z ∨ current_waveform app = 1%Z
                 ∨ current_waveform app = 2%Z ∨ current_waveform app = 3%Z)
      by lia.
    destruct Hc as [-> | [-> | [-> | ->]]]; reflexivity. }
  by destruct app.
Qed.

(** X12 applies to the state the loop starts in. *)
Lemma X12_space_cycles_waveforms_witness :
  let env : Readings Q :=
    {| at_add_note := 2%Q; at_start := 2%Q;
       at_save_stamp := "20240101_120000"; at_save := 2%Q;
       at_saved := 2%Q |} in
  let app : App Q := App_init in
  on_keydown ExampleLibm.libm pygame.K_SPACE env app no_files
  = Done (with_current_waveform
            ((current_waveform app + 1) `mod` 4)%Z app, no_files)
  ∧ handle_events ExampleLibm.libm
      [ (KEYDOWN pygame.K_SPACE, env); (KEYDOWN pygame.K_SPACE, env);
        (KEYDOWN pygame.K_SPACE, env); (KEYDOWN pygame.K_SPACE, env) ]
      app no_files
    = Done (app, no_files).
Proof.
  intros env app.
  apply (X12_space_cycles_waveforms ExampleLibm.libm env env env env app
           no_files).
  split; [cbn; lia | vm_compute; reflexivity].
Defined.

(** X13.  A pedal key negates the entry of its effect in [synth.effects],
    leaves the three other effects and everything else as they are, and a
    second press restores the state: no pedal key plays a note, starts a
    recording or saves. *)
Theorem X13_pedal_toggles (libm : Libm) {Time : Type} `{Clock Time}
    (e1 e2 : Readings Time) (app : App Time) (fs : FileSystem Time)
    (p : Pedal) :
  p ∈ pedals →
  ∃ v,
    effects_getitem (pedal_effect p) (effects (synth app)) = Some v
    ∧ on_keydown libm (pedal_key p) e1 app fs
      = Done (with_synth
                (set_effects
                   (effects_setitem (pedal_effect p) (negb v)
                      (effects (synth app)))
                   (synth app)) app, fs)
    ∧ effects_getitem (pedal_effect p)
        (effects_setitem (pedal_effect p) (negb v) (effects (synth app)))
      = Some (negb v)
    ∧ (∀ k, k ≠ pedal_effect p →
         effects_getitem k
           (effects_setitem (pedal_effect p) (negb v) (effects (synth app)))
         = effects_getitem k (effects (synth app)))
    ∧ handle_events libm
        [ (KEYDOWN (pedal_key p), e1); (KEYDOWN (pedal_key p), e2) ] app fs
      = Done (app, fs).
Proof.
  intros Hin.
  pose proof (pedal_not_a_piano_key p Hin) as Hnp.
  unfold handle_events.
  cbn [foldl mbind outcome_bind fst snd handle_event].
  unfold pedals in Hin.
  repeat (apply elem_of_cons in Hin as [->|Hin]);
    try (by apply elem_of_nil in Hin);
    cbn [pedal_effect pedal_key] in *;
    (eexists; split; [reflexivity|]);
    (split; [by rewrite on_keydown_no_piano|]);
    (split; [reflexivity|]);
    (split;
     [ intros k Hk; unfold effects_getitem; simpl;
       destruct (String.eqb_spec k "distortion"),
                (String.eqb_spec k "delay"),
                (String.eqb_spec k "low_pass"),
                (String.eqb_spec k "bit_crush"); subst; done
     | rewrite !on_keydown_no_piano by done;
       destruct app as [[? ? ? ? ? ? ? [[] [] [] []] ? ? ?] ? ? ? ?];
       reflexivity ]).
Qed.

(** X13 applies to the delay pedal in the state the loop starts in. *)
Lemma X13_pedal_toggles_witness :
  let env : Readings Q :=
    {| at_add_note := 2%Q; at_start := 2%Q;
       at_save_stamp := "20240101_120000"; at_save := 2%Q;
       at_saved := 2%Q |} in
  let app : App Q := App_init in
  let p :=
    {| pedal_key := pygame.K_2; pedal_name := "DELAY";
       pedal_effect := "delay"; pedal_color := NEON_PURPLE |} in
  ∃ v,
    effects_getitem (pedal_effect p) (effects (synth app)) = Some v
    ∧ on_keydown ExampleLibm.libm (pedal_key p) env app no_files
      = Done (with_synth
                (set_effects
                   (effects_setitem (pedal_effect p) (negb v)
                      (effects (synth app)))
                   (synth app)) app, no_files)
    ∧ effects_getitem (pedal_effect p)
        (effects_setitem (pedal_effect p) (negb v) (effects (synth app)))
      = Some (negb v)
    ∧ (∀ k, k ≠ pedal_effect p →
         effects_getitem k
           (effects_setitem (pedal_effect p) (negb v) (effects (synth app)))
         = effects_getitem k (effects (synth app)))
    ∧ handle_events ExampleLibm.libm
        [ (KEYDOWN (pedal_key p), env); (KEYDOWN (pedal_key p), env) ]
        app no_files
      = Done (app, no_files).
Proof.
  intros env app p.
  apply (X13_pedal_toggles ExampleLibm.libm env env app no_files p).
  unfold pedals. right. by left.
Defined.

(** X14.  A key that the handler does not test (no entry of [keys], not the
    space bar, no pedal's key, not R, S or Escape) changes nothing. *)
Theorem X14_unbound_key (libm : Libm) {Time : Type} `{Clock Time}
    (key : Z) (env : Readings Time) (app : App Time) (fs : FileSystem Time) :
  key ∉ bound_keys →
  on_keydown libm key env app fs = Done (app, fs).
Proof.
  unfold bound_keys. intros Hn.
  rewrite !not_elem_of_app in Hn.
  destruct Hn as (Hkeys & Hsp & Hped & Hrest).
  apply not_elem_of_cons in Hsp as [Hsp _].
  apply not_elem_of_cons in Hrest as [Hr Hrest].
  apply not_elem_of_cons in Hrest as [Hs Hrest].
  apply not_elem_of_cons in Hrest as [Hesc _].
  rewrite on_keydown_no_piano by done.
  unfold waveform_change.
  destruct (Z.eqb_spec key pygame.K_SPACE); [done|].
  destruct (effect_pedals_done key app) as (e' & -> & He').
  rewrite (He' Hped), with_synth_same_effects.
  cbn [mbind outcome_bind].
  unfold recording_controls, save_or_exit.
  destruct (Z.eqb_spec key pygame.K_r); [done|].
  destruct (Z.eqb_spec key pygame.K_s); [done|].
  by destruct (Z.eqb_spec key pygame.K_ESCAPE).
Qed.

(** X14 applies to the Z key (code 122). *)
Lemma X14_unbound_key_witness :
  let env : Readings Q :=
    {| at_add_note := 2%Q; at_start := 2%Q;
       at_save_stamp := "20240101_120000"; at_save := 2%Q;
       at_saved := 2%Q |} in
  on_keydown ExampleLibm.libm 122 env App_init no_files
  = Done (App_init, no_files).
Proof.
  intros env.
  apply (X14_unbound_key ExampleLibm.libm 122 env App_init no_files).
  apply (bool_decide_unpack _). vm_compute. reflexivity.
Defined.

(** X15.  The R key plays nothing and writes nothing.  While a recording is
    on it stops it and keeps the recorded notes.  On an idle recorder it
    starts a session at the reading of the clock and empties the list of
    recorded notes: notes of an earlier session that were not saved are
    gone. *)
Theorem X15_r_key (libm : Libm) {Time : Type} `{Clock Time}
    (env : Readings Time) (app : App Time) (fs : FileSystem Time) :
  ∃ app',
    on_keydown libm pygame.K_r env app fs = Done (app', fs)
    ∧ synth app' = synth app
    ∧ current_waveform app' = current_waveform app
    ∧ save_message_time app' = save_message_time app
    ∧ running app' = running app
    ∧ recording (recorder app') = negb (recording (recorder app))
    ∧ recorded_notes (recorder app')
      = (if recording (recorder app)
         then recorded_notes (recorder app)
         else [])
    ∧ record_start_time (recorder app')
      = (if recording (recorder app)
         then record_start_time (recorder app)
         else at_start env).
Proof.
  rewrite on_keydown_no_piano by apply r_not_a_piano_key.
  change (waveform_change pygame.K_r app) with app.
  destruct (effect_pedals_done pygame.K_r app) as (e' & -> & He').
  rewrite He' by (by apply not_in_pedal_keys).
  rewrite with_synth_same_effects. cbn [mbind outcome_bind].
  unfold recording_controls, save_or_exit.
  change (pygame.K_r =? pygame.K_r)%Z with true.
  change (pygame.K_r =? pygame.K_s)%Z with false.
  change (pygame.K_r =? pygame.K_ESCAPE)%Z with false.
  cbv iota.
  destruct (recording (recorder app)) eqn:Hrec;
    eexists; (split; [reflexivity|]); by repeat split.
Qed.

Section Kept.

Variable libm : Libm.
Context {Time : Type} `{Clock Time}.

Lemma app_kept_refl (a : App Time) : app_kept a a.
Proof. by repeat split. Qed.

Lemma app_kept_trans (a b c : App Time) :
  app_kept a b → app_kept b c → app_kept a c.
Proof.
  intros (H1 & H2 & H3 & H4 & H5 & H6 & H7 & H8)
         (K1 & K2 & K3 & K4 & K5 & K6 & K7 & K8).
  repeat split; try congruence; auto.
Qed.

Lemma files_kept_refl stamps folder (fs : FileSystem Time) :
  files_kept stamps folder fs fs.
Proof. split; [done|]. intros p. by left. Qed.

Lemma files_kept_trans s1 s2 folder (fs fs1 fs2 : FileSystem Time) :
  files_kept s1 folder fs fs1 → files_kept s2 folder fs1 fs2 →
  files_kept (s1 ++ s2) folder fs fs2.
Proof.
  intros [Hu1 Hf1] [Hu2 Hf2]. split; [congruence|].
  intros p. destruct (Hf2 p) as [Heq|(stamp & d & Hin & Hp & Hw & Hrest)].
  - rewrite Heq.
    destruct (Hf1 p) as [?|(stamp & d & Hin & Hrest)]; [by left|].
    right. exists stamp, d. split; [|done].
    apply elem_of_app. by left.
  - right. exists stamp, d. rewrite <- Hu1.
    split; [|done]. apply elem_of_app. by right.
Qed.

Lemma play_note_kept freq note_name waveform_name duration (self : Synth) :
  let after := (play_note libm freq note_name waveform_name duration self).2 in
  volume after = volume self
  ∧ delay_time after = delay_time self
  ∧ distortion_amount after = distortion_amount self
  ∧ bit_crush_factor after = bit_crush_factor self
  ∧ current_note after = Some note_name
  ∧ ((play_note libm freq note_name waveform_name duration self).1 = Ok tt →
     playing after = true).
Proof.
  cbv zeta.
  unfold play_note, mbind, SynthM_bind, update_self.
  set (named := set_current_note _ _).
  pose proof (generate_sample_state libm duration named) as Hst.
  destruct (generate_sample libm duration named) as [[buf|e] s'] eqn:Hg;
    cbn [fst snd] in *;
    destruct Hst as [-> | [wp ->]]; by repeat split.
Qed.

Lemma add_note_folder now n f w (self : Recorder Time) :
  recordings_folder (add_note now n f w self) = recordings_folder self.
Proof. unfold add_note. by destruct (recording self). Qed.

Lemma piano_keys_kept key env (app app' : App Time) :
  piano_keys libm key env app = Done app' → app_kept app app'.
Proof.
  unfold piano_keys.
  destruct (find _ keys) as [key_info|]; [|intros [= <-]; apply app_kept_refl].
  destruct (current_waveform_name app) as [name|e]; [|done].
  cbn [mbind outcome_bind].
  pose proof (play_note_kept (key_freq key_info) (key_note key_info) name 1
                (synth app)) as Hk.
  destruct (play_note libm _ _ name _ (synth app)) as [[[]|e] synth'];
    [|done].
  cbn [fst snd] in Hk. destruct Hk as (H1 & H2 & H3 & H4 & H5 & H6).
  assert (Hs : app_kept app (with_synth synth' app)).
  { repeat split; cbn; try done.
    intros _. by apply H6. }
  destruct (recording (recorder (with_synth synth' app))).
  - destruct (current_waveform_name (with_synth synth' app)) as [name'|e];
      [|done].
    cbn [mbind outcome_bind]. intros [= <-].
    destruct Hs as (K1 & K2 & K3 & K4 & K5 & K6 & K7 & K8).
    repeat split; cbn; try done.
    by rewrite add_note_folder.
  - by intros [= <-].
Qed.

Lemma waveform_change_kept key (app : App Time) :
  app_kept app (waveform_change key app).
Proof. unfold waveform_change. case_match; by repeat split. Qed.

Lemma effect_pedals_kept key (app app' : App Time) :
  effect_pedals key app = Done app' → app_kept app app'.
Proof.
  destruct (effect_pedals_done key app) as (e' & -> & _).
  intros [= <-]. by repeat split.
Qed.

Lemma recording_controls_kept key env (app : App Time) :
  app_kept app (recording_controls key env app).
Proof. unfold recording_controls. repeat case_match; by repeat split. Qed.

Lemma save_or_exit_kept key env (app : App Time) fs :
  app_kept app (save_or_exit key env app fs).1
  ∧ files_kept [at_save_stamp env] (recordings_folder (recorder app))
      fs (save_or_exit key env app fs).2.
Proof.
  unfold save_or_exit.
  destruct (key =? pygame.K_s)%Z.
  - destruct (recorded_notes (recorder app)) as [|n l] eqn:Hn;
      [split; [apply app_kept_refl|apply files_kept_refl]|].
    destruct (recording (recorder app)); cbn [negb];
      [split; [apply app_kept_refl|apply files_kept_refl]|].
    unfold save_recording. rewrite Hn.
    case_decide as Hw.
    + split; [by repeat split|apply files_kept_refl].
    + split; [by repeat split|].
      split; [done|]. intros p. cbn [files snd].
      set (path := path_join _ _).
      destruct (decide (p = path)) as [->|Hne].
      * right. eexists _, _. rewrite lookup_insert_eq.
        repeat split; try done. by left.
      * left. by rewrite lookup_insert_ne.
  - destruct (key =? pygame.K_ESCAPE)%Z.
    + split; [by repeat split|apply files_kept_refl].
    + split; [apply app_kept_refl|apply files_kept_refl].
Qed.

Lemma on_keydown_kept key env (app app' : App Time) fs fs' :
  on_keydown libm key env app fs = Done (app', fs') →
  app_kept app app'
  ∧ files_kept [at_save_stamp env] (recordings_folder (recorder app)) fs fs'.
Proof.
  unfold on_keydown.
  destruct (piano_keys libm key env app) as [app1|e] eqn:H1; [|done].
  cbn [mbind outcome_bind].
  destruct (effect_pedals key (waveform_change key app1)) as [app2|e] eqn:H2;
    [|done].
  cbn [mbind outcome_bind]. intros [= Hse].
  apply piano_keys_kept in H1. apply effect_pedals_kept in H2.
  pose proof (waveform_change_kept key app1) as Hw.
  pose proof (recording_controls_kept key env app2) as Hr.
  destruct (save_or_exit_kept key env (recording_controls key env app2) fs)
    as [Ha Hf].
  rewrite Hse in Ha, Hf. cbn [fst snd] in Ha, Hf.
  assert (Hall : app_kept app (recording_controls key env app2)).
  { eapply app_kept_trans; [exact H1|].
    eapply app_kept_trans; [exact Hw|].
    eapply app_kept_trans; [exact H2|exact Hr]. }
  split; [by eapply app_kept_trans|].
  destruct Hall as (_ & _ & _ & _ & Hfolder & _). by rewrite <- Hfolder.
Qed.

Lemma handle_event_kept event env (app app' : App Time) fs fs' :
  handle_event libm event env app fs = Done (app', fs') →
  app_kept app app'
  ∧ files_kept [at_save_stamp env] (recordings_folder (recorder app)) fs fs'.
Proof.
  destruct event as [|key|]; cbn [handle_event].
  - intros [= <- <-]. split; [by repeat split|apply files_kept_refl].
  - apply on_keydown_kept.
  - intros [= <- <-]. split; [apply app_kept_refl|apply files_kept_refl].
Qed.

Lemma handle_events_crashed (events : list (Event * Readings Time)) e :
  foldl (λ acc ev,
           '(app, fs) ← acc;
           handle_event libm ev.1 ev.2 app fs)
        (Crashed e) events
  = Crashed e.
Proof. induction events as [|ev events IH]; [done|]. exact IH. Qed.

Lemma handle_events_kept events (app app' : App Time) fs fs' :
  handle_events libm events app fs = Done (app', fs') →
  app_kept app app'
  ∧ files_kept (map (λ ev, at_save_stamp ev.2) events)
      (recordings_folder (recorder app)) fs fs'.
Proof.
  unfold handle_events. revert app fs.
  induction events as [|[event env] events IH]; intros app fs.
  - intros [= <- <-]. split; [apply app_kept_refl|apply files_kept_refl].
  - cbn [foldl mbind outcome_bind fst snd map].
    destruct (handle_event libm event env app fs) as [[app1 fs1]|e] eqn:H1.
    + intros Hrest. apply handle_event_kept in H1 as [Ha Hf].
      apply IH in Hrest as [Ha' Hf'].
      split; [by eapply app_kept_trans|].
      change (at_save_stamp env :: ?l) with ([at_save_stamp env] ++ l).
      eapply files_kept_trans; [exact Hf|].
      destruct Ha as (_ & _ & _ & _ & Hfolder & _). by rewrite <- Hfolder.
    + by rewrite handle_events_crashed.
Qed.

End Kept.

(** X16.  What the event handling never does.  Whatever the events, if they
    are handled without an exception then: the volume, the delay time, the
    distortion amount, the bit-crush factor and the recordings folder are as
    before (no key changes them); a note once shown stays shown and a
    synthesizer once playing stays playing (nothing calls [Synth.stop]); a
    loop told to end is not restarted; no file is removed or changed other
    than by saving a recording, and every file written is a recording in the
    recordings folder, named after the stamp of one of the events, with at
    least one note and a note count equal to the number of its notes. *)
Theorem X16_events_keep (libm : Libm) {Time : Type} `{Clock Time}
    (events : list (Event * Readings Time)) (app app' : App Time)
    (fs fs' : FileSystem Time) :
  handle_events libm events app fs = Done (app', fs') →
  volume (synth app') = volume (synth app)
  ∧ delay_time (synth app') = delay_time (synth app)
  ∧ distortion_amount (synth app') = distortion_amount (synth app)
  ∧ bit_crush_factor (synth app') = bit_crush_factor (synth app)
  ∧ recordings_folder (recorder app') = recordings_folder (recorder app)
  ∧ (is_Some (current_note (synth app)) → is_Some (current_note (synth app')))
  ∧ (playing (synth app) = true → playing (synth app') = true)
  ∧ (running app = false → running app' = false)
  ∧ unwritable fs' = unwritable fs
  ∧ ∀ p,
      files fs' !! p = files fs !! p
      ∨ ∃ stamp d,
          stamp ∈ map (λ ev, at_save_stamp ev.2) events
          ∧ p = path_join (recordings_folder (recorder app))
                  (recording_filename stamp)
          ∧ (p ∉ unwritable fs)
          ∧ files fs' !! p = Some d
          ∧ timestamp d = stamp
          ∧ notes d ≠ []
          ∧ total_notes d = length (notes d).
Proof.
  intros Hev.
  destruct (handle_events_kept libm events app app' fs fs' Hev)
    as [(H1 & H2 & H3 & H4 & H5 & H6 & H7 & H8) [Hu Hf]].
  by repeat split.
Qed.

(** X16 applies to the state the loop starts in, on the exact clock, with the
    keys R, 1, space and Escape. *)
Lemma X16_events_keep_witness :
  let env (now : Q) : Readings Q :=
    {| at_add_note := now; at_start := now;
       at_save_stamp := "20240101_120000"; at_save := now;
       at_saved := now |} in
  let events : list (Event * Readings Q) :=
    [ (KEYDOWN pygame.K_r, env 1%Q); (KEYDOWN pygame.K_1, env 2%Q);
      (KEYDOWN pygame.K_SPACE, env 3%Q); (KEYDOWN pygame.K_ESCAPE, env 4%Q) ] in
  let app : App Q := App_init in
  ∃ app' fs',
    handle_events ExampleLibm.libm events app no_files = Done (app', fs')
    ∧ volume (synth app') = volume (synth app)
    ∧ delay_time (synth app') = delay_time (synth app)
    ∧ distortion_amount (synth app') = distortion_amount (synth app)
    ∧ bit_crush_factor (synth app') = bit_crush_factor (synth app)
    ∧ recordings_folder (recorder app') = recordings_folder (recorder app)
    ∧ (is_Some (current_note (synth app)) →
       is_Some (current_note (synth app')))
    ∧ (playing (synth app) = true → playing (synth app') = true)
    ∧ (running app = false → running app' = false)
    ∧ unwritable fs' = unwritable no_files
    ∧ ∀ p,
        files fs' !! p = files no_files !! p
        ∨ ∃ stamp d,
            stamp ∈ map (λ ev, at_save_stamp ev.2) events
            ∧ p = path_join (recordings_folder (recorder app))
                    (recording_filename stamp)
            ∧ (p ∉ unwritable no_files)
            ∧ files fs' !! p = Some d
            ∧ timestamp d = stamp
            ∧ notes d ≠ []
            ∧ total_notes d = length (notes d).
Proof.
  intros env events app.
  eexists _, _. split; [vm_compute; reflexivity|].
  apply (X16_events_keep ExampleLibm.libm events app _ no_files _).
  vm_compute. reflexivity.
Defined.

(** * Properties of the drawing *)

Section Drawing.

#[local] Open Scope Z_scope.

Lemma all_from_sound (P : Z → bool) n : ∀ z,
  all_from P z n = true →
  ∀ k, z ≤ k < z + Z.of_nat n → P k = true.
Proof.
  induction n as [|n IH]; intros z Hok k Hk; [lia|].
  simpl in Hok. apply andb_prop in Hok as [Hz Hrest].
  destruct (decide (k = z)) as [->|Hne]; [done|].
  apply (IH (z + 1)); [done | lia].
Qed.

Lemma py_getitem_in_range {A} (l : list A) (i : Z) :
  0 ≤ i < Z.of_nat (length l) →
  ∃ v, l !! Z.to_nat i = Some v ∧ py_getitem l i = Some v.
Proof.
  intros Hi. unfold py_getitem.
  destruct (Z.leb_spec 0 i); [|lia].
  destruct (lookup_lt_is_Some_2 l (Z.to_nat i)) as [v Hv]; [lia|].
  by exists v.
Qed.

(** The points of the waveform, whenever there is a preview. *)
Lemma draw_wave_points offset (wave_points : list Z) x y width height :
  wave_points ≠ [] →
  let len := Z.of_nat (length wave_points) in
  let offset' := (offset + 2) `mod` len in
  ∃ points,
    draw_wave_visualization offset wave_points x y width height
    = Some (offset', points)
    ∧ Forall2 (λ i p,
                 ∃ value,
                   wave_points !! Z.to_nat ((i + offset') `mod` len)
                   = Some value
                   ∧ p = (x + i, normalized_y y height value))
        (py_range width) points.
Proof.
  intros Hne len offset'.
  assert (Hlen : 0 < len).
  { subst len. destruct wave_points; [done|]. simpl. lia. }
  unfold draw_wave_visualization.
  case_decide as Hz; [by destruct wave_points|].
  fold len. fold offset'.
  set (f := λ i : Z, _).
  assert (Hf : ∀ i, ∃ value,
             wave_points !! Z.to_nat ((i + offset') `mod` len) = Some value
             ∧ f i = Some (x + i, normalized_y y height value)).
  { intros i. subst f. cbv beta zeta.
    destruct (py_getitem_in_range wave_points ((i + offset') `mod` len))
      as (v & Hv & Hg).
    { by apply Z.mod_pos_bound. }
    exists v. by rewrite Hg. }
  destruct (mapM_is_Some_2 f (py_range width)) as [points Hp].
  { apply Forall_true. intros i. destruct (Hf i) as (v & _ & Hfi).
    unfold compose. rewrite Hfi. by eexists. }
  exists points. rewrite Hp. split; [done|].
  apply mapM_Some_1 in Hp.
  eapply Forall2_impl; [exact Hp|].
  intros i p Hi. destruct (Hf i) as (v & Hv & Hfi).
  exists v. split; [done|]. congruence.
Qed.

(** On the panel of the main loop every [int16] is drawn inside the panel. *)
Lemma normalized_y_in_panel value :
  is_int16 value →
  ((220 <=? normalized_y 220 120 value)%float
   && (normalized_y 220 120 value <=? 220 + 120)%float) = true.
Proof.
  intros Hv.
  apply (all_from_sound
           (λ v, (220 <=? normalized_y 220 120 v)%float
                 && (normalized_y 220 120 v <=? 220 + 120)%float)
           (Z.to_nat 65536) (-32768)).
  - vm_compute. reflexivity.
  - unfold is_int16 in Hv. lia.
Qed.

End Drawing.

Section PreviewRange.

Variable libm : Libm.
Context {Time : Type} `{Clock Time}.

(** The preview holds [int16] values, before and after a run. *)
Lemma generate_sample_preview_range len self :
  Forall is_int16 (wave_points self) →
  Forall is_int16 (wave_points (generate_sample libm len self).2).
Proof.
  intros Hw.
  destruct (generate_sample_cases libm len self)
    as [(e & _ & Hg)|[(n & _ & _ & Hg)|[(_ & _ & Hg)|
         (n & t & _ & _ & _ & _ & _ & Hg)]]]; rewrite Hg; try done.
  assert (Hp : Forall is_int16 (take 300 (mono_16bit libm self t))).
  { apply Forall_take, to_int16_range. }
  unfold rendered. destruct (delay (effects self)); [|done].
  by destruct (delay_samples_of self).
Qed.

Lemma play_note_preview_range freq note_name waveform_name duration self :
  Forall is_int16 (wave_points self) →
  Forall is_int16
    (wave_points (play_note libm freq note_name waveform_name duration self).2).
Proof.
  intros Hw.
  unfold play_note, mbind, SynthM_bind, update_self.
  set (named := set_current_note _ _).
  pose proof (generate_sample_preview_range duration named Hw) as Hg.
  by destruct (generate_sample libm duration named) as [[buf|e] s'].
Qed.

Lemma on_keydown_preview_range key env (app app' : App Time) fs fs' :
  Forall is_int16 (wave_points (synth app)) →
  on_keydown libm key env app fs = Done (app', fs') →
  Forall is_int16 (wave_points (synth app')).
Proof.
  intros Hw. unfold on_keydown.
  assert (H1 : ∀ app1, piano_keys libm key env app = Done app1 →
                       Forall is_int16 (wave_points (synth app1))).
  { intros app1. unfold piano_keys.
    destruct (find _ keys) as [key_info|]; [|by intros [= <-]].
    destruct (current_waveform_name app) as [name|e]; [|done].
    cbn [mbind outcome_bind].
    pose proof (play_note_preview_range (key_freq key_info)
                  (key_note key_info) name 1 (synth app) Hw) as Hp.
    destruct (play_note libm _ _ name _ (synth app)) as [[[]|e] synth'];
      [|done].
    cbn [snd] in Hp.
    destruct (recording (recorder (with_synth synth' app))).
    - destruct (current_waveform_name (with_synth synth' app)); [|done].
      by intros [= <-].
    - by intros [= <-]. }
  destruct (piano_keys libm key env app) as [app1|e]; [|done].
  specialize (H1 app1 eq_refl). cbn [mbind outcome_bind].
  destruct (effect_pedals_done key (waveform_change key app1))
    as (e' & -> & _).
  cbn [mbind outcome_bind]. intros [= Hse].
  assert (H2 : Forall is_int16
                 (wave_points (synth (waveform_change key app1)))).
  { unfold waveform_change. by case_match. }
  set (app2 := with_synth _ _) in Hse.
  assert (H3 : Forall is_int16
                 (wave_points (synth (recording_controls key env app2)))).
  { unfold recording_controls. by repeat case_match. }
  change app' with (app', fs').1. rewrite <- Hse.
  unfold save_or_exit. by repeat case_match.
Qed.

Lemma handle_events_preview_range events (app app' : App Time) fs fs' :
  Forall is_int16 (wave_points (synth app)) →
  handle_events libm events app fs = Done (app', fs') →
  Forall is_int16 (wave_points (synth app')).
Proof.
  unfold handle_events. revert app fs.
  induction events as [|[event env] events IH]; intros app fs Hw.
  - by intros [= <- <-].
  - cbn [foldl mbind outcome_bind fst snd].
    destruct (handle_event libm event env app fs) as [[app1 fs1]|e] eqn:H1.
    + apply IH. destruct event as [|key|]; cbn [handle_event] in H1.
      * by injection H1 as <- <-.
      * by eapply on_keydown_preview_range.
      * by injection H1 as <- <-.
    + by rewrite handle_events_crashed.
Qed.

End PreviewRange.


(** X18.  [draw_note_display] keeps [note_animation_alpha] between 0 and
    255.  The note is drawn exactly when [current_note] is a non-empty
    string, and then with an alpha of at least 15.  With a note set the
    alpha after [n] frames is [min(255, alpha + 15 n)], fully opaque from
    the 17th frame on; without one it is [max(0, alpha - 8 n)]. *)
Theorem X18_note_display (current_note : option string) (text : string)
    (alpha : Z) (n : nat) :
  (0 ≤ alpha ≤ 255)%Z →
  let alpha' := (draw_note_display current_note alpha).1 in
  (0 ≤ alpha' ≤ 255)%Z
  ∧ (draw_note_display current_note alpha).2
    = (if py_truthy current_note
       then (λ text, (text, alpha')) <$> current_note
       else None)
  ∧ (py_truthy current_note = true → (15 ≤ alpha')%Z)
  ∧ (text ≠ "" →
     Nat.iter n (λ a, (draw_note_display (Some text) a).1) alpha
     = Z.min 255 (alpha + 15 * Z.of_nat n))
  ∧ Nat.iter n (λ a, (draw_note_display None a).1) alpha
    = Z.max 0 (alpha - 8 * Z.of_nat n).
Proof.
  intros Ha. cbv zeta. unfold draw_note_display. cbn [fst snd].
  split; [case_match; lia|].
  split.
  { destruct current_note as [s|]; [|done].
    destruct (py_truthy (Some s)) eqn:Ht; [|by rewrite andb_false_r].
    destruct (Z.ltb_spec 0 (Z.min 255 (alpha + 15))); [done|lia]. }
  split; [intros ->; lia|].
  split.
  - intros Hne.
    assert (Ht : py_truthy (Some text) = true).
    { cbn. by destruct (String.eqb_spec text ""). }
    rewrite Ht. induction n as [|n IH]; [cbn; lia|].
    rewrite Nat.iter_succ, IH. lia.
  - cbn [py_truthy]. induction n as [|n IH]; [cbn; lia|].
    rewrite Nat.iter_succ, IH. lia.
Qed.

(** X18 applies to a display at alpha 100 and seventeen frames. *)
Lemma X18_note_display_witness :
  let alpha' := (draw_note_display (Some "A") 100).1 in
  (0 ≤ alpha' ≤ 255)%Z
  ∧ (draw_note_display (Some "A") 100).2
    = (if py_truthy (Some "A")
       then (λ text, (text, alpha')) <$> Some "A"
       else None)
  ∧ (py_truthy (Some "A") = true → (15 ≤ alpha')%Z)
  ∧ ("A" ≠ "" →
     Nat.iter 17 (λ a, (draw_note_display (Some "A") a).1) 100%Z
     = Z.min 255 (100 + 15 * Z.of_nat 17))
  ∧ Nat.iter 17 (λ a, (draw_note_display None a).1) 100%Z
    = Z.max 0 (100 - 8 * Z.of_nat 17).
Proof.
  apply (X18_note_display (Some "A") "A" 100 17). lia.
Defined.



(** X20.  The waveform stays in its panel.  From a state whose preview holds
    [int16] values (the state the loop starts in has an empty one), after
    any events handled without an exception, the call of the main loop
    [draw_wave_visualization(screen, synth.wave_points, 100, 220, 400, 120)]
    returns, and every point it draws lies in the panel: abscissa from 100
    to 499, ordinate from 220 to 340. *)
Theorem X20_waveform_in_panel (libm : Libm) {Time : Type} `{Clock Time}
    (events : list (Event * Readings Time)) (app app' : App Time)
    (fs fs' : FileSystem Time) (offset : Z) :
  Forall is_int16 (wave_points (synth app)) →
  handle_events libm events app fs = Done (app', fs') →
  ∃ offset' points,
    draw_wave_visualization offset (wave_points (synth app')) 100 220 400 120
    = Some (offset', points)
    ∧ Forall (λ p, in_wave_panel p = true) points.
Proof.
  intros Hw Hev.
  pose proof (handle_events_preview_range libm events app app' fs fs' Hw Hev)
    as Hw'.
  destruct (decide (wave_points (synth app') = [])) as [He|Hne].
  { exists offset, []. rewrite He. by split. }
  destruct (draw_wave_points offset (wave_points (synth app')) 100 220 400 120
              Hne) as (points & Hd & Hall).
  eexists _, points. split; [exact Hd|].
  apply (Forall2_Forall_r _ _ _ _ Hall).
  apply Forall_seqZ. intros i Hi p (v & Hv & ->).
  assert (Hv16 : is_int16 v).
  { rewrite Forall_lookup in Hw'. by apply (Hw' _ _ Hv). }
  pose proof (normalized_y_in_panel v Hv16) as Hy.
  unfold in_wave_panel. cbn [fst snd].
  apply andb_prop in Hy as [Hy1 Hy2]. rewrite Hy1, Hy2, !andb_true_r.
  apply andb_true_intro. split; [apply Z.leb_le|apply Z.ltb_lt]; lia.
Qed.

(** X20 applies to a preview of three samples and a press of the space
    bar. *)
Lemma X20_waveform_in_panel_witness :
  let app : App Q :=
    with_synth (set_wave_points [100; -200; 300]%Z Synth_init) App_init in
  let events : list (Event * Readings Q) :=
    [ (KEYDOWN pygame.K_SPACE,
       {| at_add_note := 2%Q; at_start := 2%Q;
          at_save_stamp := "20240101_120000"; at_save := 2%Q;
          at_saved := 2%Q |}) ] in
  ∃ offset' points,
    draw_wave_visualization 0
      (wave_points (synth (with_current_waveform 1 app))) 100 220 400 120
    = Some (offset', points)
    ∧ Forall (λ p, in_wave_panel p = true) points.
Proof.
  intros app events.
  apply (X20_waveform_in_panel ExampleLibm.libm events app
           (with_current_waveform 1 app) no_files no_files 0).
  - repeat constructor; unfold is_int16; lia.
  - vm_compute. reflexivity.
Defined.
